(** * Connection-parameter resolution of a tunnel: a shallow embedding

    The development follows the two Go packages of the repository:

    - package [log]: the diagnostic sink ([logWriter], rotation, [Warningf]);
    - package [tunnel]: [makeRunConfig], [parseSSHConf], [validate],
      [makeClientConfig], [sshConfigPath] and [fillHome].

    Go strings are byte strings and are modelled by [string]; Go's [int] is
    the 64-bit signed integer and is modelled by [Z]; a Go [error] is
    modelled by its message ([option error], [None] being [nil]).  Functions
    of the Go standard library that the code calls are modelled in the
    modules [strings], [strconv] and [fmt]; the operating system, the SSH
    configuration parser and the SSH key and known-hosts parsers are
    oracles collected in an environment record. *)

From Stdlib Require Import String Ascii List ZArith Lia Bool.
From Stdlib Require Decimal DecimalString.
Import ListNotations.

Local Open Scope string_scope.
Local Open Scope Z_scope.

(** A Go [error] value, identified with the text of its [Error()] method. *)
Definition error : Type := string.

(** ** Package [strings] of the standard library *)

Module strings.

(** [strings.HasPrefix(s, prefix)]. *)
Definition HasPrefix (s prefix : string) : bool := String.prefix prefix s.

(** [strings.Contains(s, substr)]: [substr] starts at some offset of [s]. *)
Fixpoint Contains (s substr : string) : bool :=
  String.prefix substr s
  || match s with
     | EmptyString => false
     | String _ s' => Contains s' substr
     end.

(** The slice expression [s[n:]] for [n <= len(s)]. *)
Fixpoint sliceFrom (n : nat) (s : string) : string :=
  match n, s with
  | O, _ => s
  | S n', String _ s' => sliceFrom n' s'
  | S _, EmptyString => EmptyString
  end.

End strings.

(** ** Package [strconv] of the standard library: [Atoi]

    [Atoi] has a fast path for short inputs and otherwise defers to
    [ParseInt(s, 10, 0)], which parses the magnitude with [ParseUint] and
    then checks the signed range.  [int] and [uint64] arithmetic is written
    with its wrap-around. *)

Module strconv.

Inductive NumError : Type := ErrSyntax | ErrRange.

Definition intSize : Z := 64.
Definition maxUint64 : Z := 2 ^ 64 - 1.

(** Conversion to [int] (two's complement, 64 bits). *)
Definition to_int (z : Z) : Z := (z + 2 ^ 63) mod 2 ^ 64 - 2 ^ 63.

(** Conversion to [uint64]. *)
Definition to_uint64 (z : Z) : Z := z mod 2 ^ 64.

(** The value of a decimal digit byte, [None] for any other byte. *)
Definition digit (c : ascii) : option Z :=
  let b := Z.of_nat (nat_of_ascii c) in
  if (48 <=? b) && (b <=? 57) then Some (b - 48) else None.

Definition isSign (c : ascii) : bool :=
  Ascii.eqb c "-"%char || Ascii.eqb c "+"%char.

(** The digit loop of the fast path: [n = n*10 + int(ch)], a syntax error
    ([None]) at the first byte that is not a digit. *)
Fixpoint fastLoop (s : string) (n : Z) : option Z :=
  match s with
  | EmptyString => Some n
  | String ch s' =>
      match digit ch with
      | None => None
      | Some d => fastLoop s' (to_int (n * 10 + d))
      end
  end.

(** The loop of [ParseUint(s, 10, 64)].  A byte that is not a decimal digit
    is a syntax error with value 0; an overflow returns [maxUint64] with a
    range error at once, without looking at the bytes that follow. *)
Fixpoint parseUintLoop (s : string) (n : Z) : Z * option NumError :=
  match s with
  | EmptyString => (n, None)
  | String c s' =>
      match digit c with
      | None => (0, Some ErrSyntax)
      | Some d =>
          let cutoff := maxUint64 / 10 + 1 in
          if cutoff <=? n then (maxUint64, Some ErrRange)
          else
            let n := to_uint64 (n * 10) in
            let n1 := to_uint64 (n + d) in
            if (n1 <? n) || (maxUint64 <? n1) then (maxUint64, Some ErrRange)
            else parseUintLoop s' n1
      end
  end.

Definition ParseUint (s : string) : Z * option NumError :=
  match s with
  | EmptyString => (0, Some ErrSyntax)
  | _ => parseUintLoop s 0
  end.

(** [ParseInt(s, 10, 0)]. *)
Definition ParseInt (s : string) : Z * option NumError :=
  match s with
  | EmptyString => (0, Some ErrSyntax)
  | String c0 s1 =>
      let neg := Ascii.eqb c0 "-"%char in
      let s := if isSign c0 then s1 else s in
      let '(un, err) := ParseUint s in
      match err with
      | Some ErrSyntax => (0, err)
      | _ =>
          let cutoff := 2 ^ (intSize - 1) in
          if negb neg && (cutoff <=? un) then (cutoff - 1, Some ErrRange)
          else if neg && (cutoff <? un) then (- cutoff, Some ErrRange)
          else
            let n := to_int un in
            (if neg then to_int (- n) else n, None)
      end
  end.

(** [Atoi(s)]: the value and the error, both of which the caller sees. *)
Definition Atoi (s : string) : Z * option NumError :=
  let sLen := Z.of_nat (String.length s) in
  if (0 <? sLen) && (sLen <? 19) then
    match s with
    | EmptyString => (0, Some ErrSyntax)
    | String c0 s1 =>
        let body := if isSign c0 then s1 else s in
        match body with
        | EmptyString => (0, Some ErrSyntax)
        | _ =>
            match fastLoop body 0 with
            | None => (0, Some ErrSyntax)
            | Some n => (if Ascii.eqb c0 "-"%char then - n else n, None)
            end
        end
    end
  else
    let '(i64, err) := ParseInt s in (to_int i64, err).

End strconv.

(** ** The syntax of decimal integers

    What the specification calls a valid decimal integer: an optional sign
    followed by one or more decimal digits. *)

Fixpoint allDigits (s : string) : bool :=
  match s with
  | EmptyString => true
  | String c s' =>
      match strconv.digit c with
      | Some _ => allDigits s'
      | None => false
      end
  end.

(** The text after its optional sign. *)
Definition unsigned (s : string) : string :=
  match s with
  | EmptyString => EmptyString
  | String c s' => if strconv.isSign c then s' else s
  end.

Definition validDecimal (s : string) : bool :=
  match unsigned s with
  | EmptyString => false
  | body => allDigits body
  end.

(** Some byte among the first [n] of [s] is not a digit. *)
Fixpoint nonDigitWithin (n : nat) (s : string) : bool :=
  match n, s with
  | S n', String c s' =>
      match strconv.digit c with
      | None => true
      | Some _ => nonDigitWithin n' s'
      end
  | _, _ => false
  end.

(** The text is empty, a bare sign, or has a byte that is not a digit among
    the first 20 after its optional sign. *)
Definition malformedEarly (s : string) : bool :=
  match unsigned s with
  | EmptyString => true
  | body => nonDigitWithin 20 body
  end.

(** The number a decimal numeral denotes, read from the most significant
    digit on, starting from [acc]. *)
Fixpoint decimalValue (d : Decimal.uint) (acc : Z) : Z :=
  match d with
  | Decimal.Nil => acc
  | Decimal.D0 l => decimalValue l (acc * 10)
  | Decimal.D1 l => decimalValue l (acc * 10 + 1)
  | Decimal.D2 l => decimalValue l (acc * 10 + 2)
  | Decimal.D3 l => decimalValue l (acc * 10 + 3)
  | Decimal.D4 l => decimalValue l (acc * 10 + 4)
  | Decimal.D5 l => decimalValue l (acc * 10 + 5)
  | Decimal.D6 l => decimalValue l (acc * 10 + 6)
  | Decimal.D7 l => decimalValue l (acc * 10 + 7)
  | Decimal.D8 l => decimalValue l (acc * 10 + 8)
  | Decimal.D9 l => decimalValue l (acc * 10 + 9)
  end.

(** ** Package [fmt] of the standard library

    The program formats only strings and errors, with the verbs [%v] and
    [%s]; both print such an operand as its text.  A verb without an operand
    prints Go's [%!v(MISSING)] marker.  The model is Go's [Sprintf] on the
    formats whose verbs are [%v], [%s] and [%%] with no more operands than
    verbs, which are all the calls of the program.  Outside of them it is
    not: Go reports surplus operands with their dynamic types, which
    operands modelled by their text do not have, and treats other verbs in
    its own ways; here surplus operands are dropped and another verb is
    copied as it stands. *)

Module fmt.

Fixpoint Sprintf (format : string) (a : list string) : string :=
  match format with
  | EmptyString => EmptyString
  | String c rest =>
      if Ascii.eqb c "%"%char then
        match rest with
        | EmptyString => "%!(NOVERB)"
        | String v rest' =>
            if Ascii.eqb v "v"%char || Ascii.eqb v "s"%char then
              match a with
              | x :: a' => x ++ Sprintf rest' a'
              | [] => "%!" ++ String v "(MISSING)" ++ Sprintf rest' []
              end
            else if Ascii.eqb v "%"%char then String "%" (Sprintf rest' a)
            else String c (String v (Sprintf rest' a))
        end
      else String c (Sprintf rest a)
  end.

(** [fmt.Errorf]: an error whose text is the formatted message. *)
Definition Errorf (format : string) (a : list string) : error :=
  Sprintf format a.

End fmt.

(** ** The process environment shared by both packages *)

Record Process : Type := {
  (** [runtime.GOOS] *)
  GOOS : string;
  (** [os.Getenv] *)
  Getenv : string -> string;
  (** [time.Now().Format(layout)] at the n-th reading of the clock *)
  Now : nat -> string -> string
}.

(** ** Package [log] *)

Module log.

Definition maxFileSize : Z := 128 * 1024.

(** An open [*os.File] as far as rotation looks at it: its size, the
    offset of the handle, and whether [Stat] and [Truncate] fail on it. *)
Record File : Type := {
  size : Z;
  offset : Z;
  statFails : bool;
  truncateFails : bool
}.

Definition Stat (f : File) : option Z :=
  if statFails f then None else Some (size f).

Definition Truncate0 (f : File) : option File :=
  if truncateFails f then None
  else Some {| size := 0; offset := offset f;
               statFails := statFails f; truncateFails := truncateFails f |}.

Definition Seek0 (f : File) : File :=
  {| size := size f; offset := 0;
     statFails := statFails f; truncateFails := truncateFails f |}.

(** A write through a handle opened without [O_APPEND]: the bytes go to the
    offset of the handle.  (A handle opened with [O_APPEND] writes at the
    end of the file; the two agree when the handle stands at the end, and
    in that the file does not shrink.) *)
Definition fileWrite (f : File) (bytes : string) : File :=
  let off := offset f + Z.of_nat (String.length bytes) in
  {| size := Z.max (size f) off; offset := off;
     statFails := statFails f; truncateFails := truncateFails f |}.

(** The dynamic type of an [io.Writer]: a file or anything else. *)
Inductive Writer : Type :=
| FileWriter (f : File)
| OtherWriter.

(** [logWriter]; the mutex guards [Write] and has no sequential content. *)
Record logWriter : Type := { inner : Writer }.

(** The state of the package: the global [writer], the number of clock
    readings made so far, and every chunk handed to [inner.Write], oldest
    first. *)
Record State : Type := {
  writer : logWriter;
  ticks : nat;
  written : list string
}.

Definition tryRotate (w : logWriter) : logWriter :=
  match inner w with
  | OtherWriter => w
  | FileWriter f =>
      match Stat f with
      | None => w
      | Some sz =>
          if sz <? maxFileSize then w
          else
            match Truncate0 f with
            | Some f' => {| inner := FileWriter (Seek0 f') |}
            | None => w
            end
      end
  end.

(** The [Write] method of [logWriter]: rotate if ripe, then write to the
    inner writer. *)
Definition Write (bytes : string) (st : State) : State :=
  let w := tryRotate (writer st) in
  let w' :=
    match inner w with
    | FileWriter f => {| inner := FileWriter (fileWrite f bytes) |}
    | OtherWriter => w
    end in
  {| writer := w'; ticks := ticks st; written := (written st ++ [bytes])%list |}.

Section WithProcess.

Variable p : Process.

Definition esc : string := String (ascii_of_nat 27) EmptyString.
Definition newline : string := String (ascii_of_nat 10) EmptyString.

(** The colour variables after [init]. *)
Definition onWindows : bool := String.eqb (GOOS p) "windows".
Definition Reset : string := if onWindows then "" else esc ++ "[0m".
Definition Yellow : string := if onWindows then "" else esc ++ "[33m".

Definition debug : bool := negb (String.eqb (Getenv p "DEBUG") "").

Definition timestamp (st : State) : string * State :=
  let format := if debug then "15:04:05.000" else "15:04:05" in
  ("[" ++ Now p (ticks st) format ++ "]",
   {| writer := writer st; ticks := S (ticks st); written := written st |}).

(** The line [Warningf] writes for a message at a given time stamp. *)
Definition warningLine (ts message : string) : string :=
  fmt.Sprintf ("%s %sWARNING%s %s" ++ newline) [ts; Yellow; Reset; message].

Definition Warningf (format : string) (a : list string) (st : State) : State :=
  let message := fmt.Sprintf format a in
  let '(ts, st) := timestamp st in
  Write (warningLine ts message) st.

End WithProcess.

(** [SetOutput] *)
Definition SetOutput (w : Writer) (st : State) : State :=
  {| writer := {| inner := w |}; ticks := ticks st; written := written st |}.

(** A file that rotation can work on: [Stat] and [Truncate] succeed, and
    the handle stands at the end of the file, where a log is written. *)
Definition appending (f : File) : Prop :=
  statFails f = false /\ truncateFails f = false
  /\ 0 <= size f /\ offset f = size f.

(** One [Write] after the other, oldest chunk first. *)
Definition writeAll (chunks : list string) (st : State) : State :=
  fold_left (fun st bytes => Write bytes st) chunks st.

End log.


(** ** Package [tunnel]

    The outside of the program: the file system as [os.Open] and
    [os.ReadFile] see it, and the three external parsers.  [Config],
    [Signer] and [HostKeyCallback] are the opaque values of the SSH
    libraries ([*ssh_config.Config], [ssh.Signer],
    [ssh.HostKeyCallback]). *)

(** What a path names. *)
Inductive Node : Type :=
| NoEntry                    (* nothing there *)
| Denied                     (* exists, may not be opened *)
| Directory                  (* opens, cannot be read *)
| Regular (data : string).   (* opens and reads as [data] *)

(** The calls the program makes to the outside, in the order made. *)
Inductive Call : Type :=
| CallOpen (name : string)
| CallClose (name : string)
| CallReadFile (name : string)
| CallKnownHosts (name : string).

(** The mutable world: the state of package [log] and the calls so far. *)
Record World : Type := {
  logState : log.State;
  calls : list Call
}.

(** Stateful code is a function from the world to a result and a world. *)
Definition M (A : Type) : Type := World -> A * World.

Definition ret {A : Type} (a : A) : M A := fun w => (a, w).

Definition bind {A B : Type} (m : M A) (k : A -> M B) : M B :=
  fun w => let '(a, w') := m w in k a w'.

Notation "x <- m ;; k" := (bind m (fun x => k))
  (at level 61, m at next level, right associativity).
Notation "m ;;; k" := (bind m (fun _ => k))
  (at level 61, right associativity).

Definition call (c : Call) : M unit :=
  fun w => (tt, {| logState := logState w; calls := (calls w ++ [c])%list |}).

Definition liftLog (f : log.State -> log.State) : M unit :=
  fun w => (tt, {| logState := f (logState w); calls := calls w |}).

(** An open file for reading: its name and what reading it yields. *)
Record Handle : Type := {
  handleName : string;
  handleData : option string
}.

Section Tunnel.

Context {Config Signer HostKeyCallback : Type}.

Record Env : Type := {
  proc : Process;
  (** [filepath.Join] of the platform *)
  filepath_Join : list string -> string;
  fs : string -> Node;
  (** the parser of [ssh_config.Decode], on the bytes read *)
  ssh_config_parse : string -> Config + error;
  (** the method [Get(alias, key)] of a decoded configuration *)
  ssh_config_Get : Config -> string -> string -> string * option error;
  ssh_ParsePrivateKey : string -> Signer + error;
  knownhosts_New : string -> HostKeyCallback + error
}.

Definition sshPort : Z := 22.

(** [10 * time.Second], a [time.Duration] in nanoseconds. *)
Definition sshConnTimeout : Z := 10 * 1000000000.

Definition defaultKeys : list string :=
  ["~/.ssh/id_rsa"; "~/.ssh/id_ecdsa"; "~/.ssh/id_ed25519"].

Inductive AuthMethod : Type :=
| PublicKeys (signers : list Signer).

(** The fields of [ssh.ClientConfig] the program sets. *)
Record ClientConfig : Type := {
  ssh_User : string;
  ssh_Auth : list AuthMethod;
  ssh_HostKeyCallback : HostKeyCallback;
  ssh_Timeout : Z
}.

Record runConfig : Type := {
  localAddress : string;
  remoteAddress : string;
  hostName : string;
  user : string;
  port : Z;
  identityFile : string;
  clientConfig : option ClientConfig
}.

(** Modelled from the spec: the declaration of the [Tunnel] struct is not in
    the sources at hand; these are the fields [makeRunConfig] reads and
    writes (host alias, optional user, optional port, optional identity-file
    path, local and remote address specs, and the run configuration [rc]). *)
Record Tunnel : Type := {
  Host : string;
  User : string;
  Port : Z;
  IdentityFile : string;
  LocalAddress : string;
  RemoteAddress : string;
  rc : option runConfig
}.

(** The zero value [runConfig{}]. *)
Definition runConfig0 : runConfig :=
  {| localAddress := ""; remoteAddress := ""; hostName := ""; user := "";
     port := 0; identityFile := ""; clientConfig := None |}.

Definition set_localAddress (r : runConfig) (v : string) : runConfig :=
  {| localAddress := v; remoteAddress := remoteAddress r;
     hostName := hostName r; user := user r; port := port r;
     identityFile := identityFile r; clientConfig := clientConfig r |}.

Definition set_remoteAddress (r : runConfig) (v : string) : runConfig :=
  {| localAddress := localAddress r; remoteAddress := v;
     hostName := hostName r; user := user r; port := port r;
     identityFile := identityFile r; clientConfig := clientConfig r |}.

Definition set_hostName (r : runConfig) (v : string) : runConfig :=
  {| localAddress := localAddress r; remoteAddress := remoteAddress r;
     hostName := v; user := user r; port := port r;
     identityFile := identityFile r; clientConfig := clientConfig r |}.

Definition set_user (r : runConfig) (v : string) : runConfig :=
  {| localAddress := localAddress r; remoteAddress := remoteAddress r;
     hostName := hostName r; user := v; port := port r;
     identityFile := identityFile r; clientConfig := clientConfig r |}.

Definition set_port (r : runConfig) (v : Z) : runConfig :=
  {| localAddress := localAddress r; remoteAddress := remoteAddress r;
     hostName := hostName r; user := user r; port := v;
     identityFile := identityFile r; clientConfig := clientConfig r |}.

Definition set_identityFile (r : runConfig) (v : string) : runConfig :=
  {| localAddress := localAddress r; remoteAddress := remoteAddress r;
     hostName := hostName r; user := user r; port := port r;
     identityFile := v; clientConfig := clientConfig r |}.

Definition set_clientConfig (r : runConfig) (v : option ClientConfig) : runConfig :=
  {| localAddress := localAddress r; remoteAddress := remoteAddress r;
     hostName := hostName r; user := user r; port := port r;
     identityFile := identityFile r; clientConfig := v |}.

(** The assignment [t.rc = &rc]. *)
Definition set_rc t r : Tunnel :=
  {| Host := Host t; User := User t; Port := Port t;
     IdentityFile := IdentityFile t; LocalAddress := LocalAddress t;
     RemoteAddress := RemoteAddress t; rc := Some r |}.

Variable e : Env.

(** *** The operating system *)

Definition os_Open (name : string) : M (Handle + error) :=
  call (CallOpen name) ;;;
  ret match fs e name with
      | NoEntry => inr ("open " ++ name ++ ": no such file or directory")
      | Denied => inr ("open " ++ name ++ ": permission denied")
      | Directory => inl {| handleName := name; handleData := None |}
      | Regular data => inl {| handleName := name; handleData := Some data |}
      end.

Definition Close (f : Handle) : M unit := call (CallClose (handleName f)).

Definition os_ReadFile (name : string) : M (string + error) :=
  call (CallReadFile name) ;;;
  ret match fs e name with
      | NoEntry => inr ("open " ++ name ++ ": no such file or directory")
      | Denied => inr ("open " ++ name ++ ": permission denied")
      | Directory => inr ("read " ++ name ++ ": is a directory")
      | Regular data => inl data
      end.

(** [ssh_config.Decode]: read the whole file, then parse the bytes. *)
Definition ssh_config_Decode (f : Handle) : Config + error :=
  match handleData f with
  | None => inr ("read " ++ handleName f ++ ": is a directory")
  | Some data => ssh_config_parse e data
  end.

(** *** The functions of the package *)

Definition sshConfigPath (filename : string) : string :=
  filepath_Join e [Getenv (proc e) "HOME"; ".ssh"; filename].

Definition fillHome (path : string) : string :=
  let home := Getenv (proc e) "HOME" in
  if String.eqb path "~" then home
  else if strings.HasPrefix path "~/" then
    filepath_Join e [home; strings.sliceFrom 2 path]
  else path.

(** [parseSSHConf(alias, rc)]: the run configuration as the call leaves it,
    and the error returned. *)
Definition parseSSHConf (alias : string) (rc : runConfig)
  : M (runConfig * option error) :=
  opened <- os_Open (sshConfigPath "config") ;;
  match opened with
  | inr _ => ret (rc, None)
  | inl sshConfFile =>
      match ssh_config_Decode sshConfFile with
      | inr err =>
          ret (rc, Some (fmt.Errorf "could not decode ssh config: %v" [err]))
      | inl sshConf =>
          Close sshConfFile ;;;
          let rc := set_identityFile rc
                      (fst (ssh_config_Get e sshConf alias "IdentityFile")) in
          let rc := set_user rc (fst (ssh_config_Get e sshConf alias "User")) in
          let port := fst (ssh_config_Get e sshConf alias "Port") in
          let rc := set_port rc (fst (strconv.Atoi port)) in
          let rc := set_hostName rc
                      (fst (ssh_config_Get e sshConf alias "HostName")) in
          ret (rc, None)
      end
  end.

Definition validate (rc : runConfig) : option error :=
  if String.eqb (hostName rc) "" then Some (fmt.Errorf "no host specified." [])
  else if String.eqb (user rc) "" then Some (fmt.Errorf "no user specified." [])
  else if port rc =? 0 then Some (fmt.Errorf "no port specified." [])
  else None.

(** The loop of [makeClientConfig] over the candidate key files, from the
    signers collected so far. *)
Fixpoint scanKeys (identityFiles : list string) (signers : list Signer)
  : M (list Signer) :=
  match identityFiles with
  | [] => ret signers
  | i :: rest =>
      key <- os_ReadFile (fillHome i) ;;
      match key with
      | inr _ => scanKeys rest signers
      | inl key =>
          match ssh_ParsePrivateKey e key with
          | inr err =>
              liftLog (log.Warningf (proc e)
                         "Unable to parse private key %v: %v" [i; err]) ;;;
              scanKeys rest signers
          | inl signer => scanKeys rest (signers ++ [signer])%list
          end
      end
  end.

Definition makeClientConfig (user identityFile : string)
  : M (ClientConfig + error) :=
  let identityFiles := ([identityFile] ++ defaultKeys)%list in
  signers <- scanKeys identityFiles [] ;;
  if (List.length signers =? 0)%nat then
    ret (inr (fmt.Errorf "no key files found." []))
  else
    call (CallKnownHosts (sshConfigPath "known_hosts")) ;;;
    match knownhosts_New e (sshConfigPath "known_hosts") with
    | inr err => ret (inr err)
    | inl knownHostsCallback =>
        ret (inl {| ssh_User := user;
                    ssh_Auth := [PublicKeys signers];
                    ssh_HostKeyCallback := knownHostsCallback;
                    ssh_Timeout := sshConnTimeout |})
    end.

(** The part of [makeRunConfig] between the reading of the SSH
    configuration and the validation: the overrides set on the
    declaration, the default port, and the alias taken as host name. *)
Definition overrideAndDefault (t : Tunnel) (rc : runConfig) : runConfig :=
  let rc := if negb (String.eqb (User t) "") then set_user rc (User t) else rc in
  let rc := if negb (Port t =? 0) then set_port rc (Port t) else rc in
  let rc := if negb (String.eqb (IdentityFile t) "")
            then set_identityFile rc (IdentityFile t) else rc in
  let rc := if port rc =? 0 then set_port rc sshPort else rc in
  let rc := if String.eqb (hostName rc) "" then set_hostName rc (Host t) else rc in
  rc.

(** The normalisation of the local address in [makeRunConfig]. *)
Definition qualifyLocal (localAddress : string) : string :=
  if negb (strings.Contains localAddress ":")
  then "localhost:" ++ localAddress
  else localAddress.

(** [(t *Tunnel) makeRunConfig()]: the tunnel as the call leaves it, and the
    error returned. *)
Definition makeRunConfig (t : Tunnel) : M (Tunnel * option error) :=
  let rc := runConfig0 in
  parsed <- parseSSHConf (Host t) rc ;;
  let '(rc, err) := parsed in
  match err with
  | Some err => ret (t, Some (fmt.Errorf "could not parse SSH config: %v" [err]))
  | None =>
      let rc := overrideAndDefault t rc in
      match validate rc with
      | Some err => ret (t, Some err)
      | None =>
          made <- makeClientConfig (user rc) (identityFile rc) ;;
          match made with
          | inr err =>
              ret (t, Some (fmt.Errorf "could not make client config: %v" [err]))
          | inl cc =>
              let rc := set_clientConfig rc (Some cc) in
              let rc := set_remoteAddress rc (RemoteAddress t) in
              let rc := set_localAddress rc (qualifyLocal (LocalAddress t)) in
              ret (set_rc t rc, None)
          end
      end
  end.

(** *** Notions of the specification *)

(** A source supplies a field when it gives a non-empty string or a
    non-zero number; the resolved field is the first one supplied, going
    down the precedence order. *)
Definition suppliedString (s : string) : option string :=
  if String.eqb s "" then None else Some s.

Definition suppliedInt (z : Z) : option Z :=
  if z =? 0 then None else Some z.

Fixpoint firstSupplied {A : Type} (sources : list (option A)) : option A :=
  match sources with
  | [] => None
  | Some a :: _ => Some a
  | None :: rest => firstSupplied rest
  end.

(** No entry is found for the alias: the configuration file does not open,
    or it decodes and has no value for the alias under any key. *)
Definition noEntryFor (alias : string) : Prop :=
  match fs e (sshConfigPath "config") with
  | NoEntry | Denied => True
  | Directory => False
  | Regular data =>
      exists conf, ssh_config_parse e data = inl conf /\
        forall key, fst (ssh_config_Get e conf alias key) = ""
  end.

(** What happens to one candidate key file. *)
Inductive Outcome : Type :=
| Skipped
| Warned (err : error)
| Loaded (signer : Signer).

Definition outcome (i : string) : Outcome :=
  match fs e (fillHome i) with
  | Regular key =>
      match ssh_ParsePrivateKey e key with
      | inl signer => Loaded signer
      | inr err => Warned err
      end
  | _ => Skipped
  end.

Definition loaded (candidates : list string) : list Signer :=
  flat_map (fun i => match outcome i with Loaded s => [s] | _ => [] end)
           candidates.

Definition warned (candidates : list string) : list (string * error) :=
  flat_map (fun i => match outcome i with Warned err => [(i, err)] | _ => [] end)
           candidates.

(** A warning line for a candidate that did not parse. *)
Definition isParseWarning (about : string * error) (line : string) : Prop :=
  exists ts,
    line = log.warningLine (proc e) ts
             ("Unable to parse private key " ++ fst about ++ ": " ++ snd about).

(** The calls made and the chunks written to the sink between two worlds. *)
Definition newCalls (w w' : World) : list Call :=
  skipn (List.length (calls w)) (calls w').

Definition newWrites (w w' : World) : list string :=
  skipn (List.length (log.written (logState w))) (log.written (logState w')).

(** [os.ReadFile] is called by [makeClientConfig] only, which starts by
    reading its first candidate: a new read marks a run of it. *)
Definition ranMakeClientConfig (w w' : World) : Prop :=
  exists name, In (CallReadFile name) (newCalls w w').

(** The world after some more calls. *)
Definition addCalls (w : World) (cs : list Call) : World :=
  {| logState := logState w; calls := (calls w ++ cs)%list |}.

(** What decoding the configuration file gives, when the file opens. *)
Definition decodedConfig : option (Config + error) :=
  let name := sshConfigPath "config" in
  match fs e name with
  | NoEntry | Denied => None
  | Directory =>
      Some (ssh_config_Decode {| handleName := name; handleData := None |})
  | Regular data =>
      Some (ssh_config_Decode {| handleName := name; handleData := Some data |})
  end.

(** The value a decoded configuration has for the alias under a key. *)
Definition configured (conf : Config) (alias key : string) : string :=
  fst (ssh_config_Get e conf alias key).

(** What the configuration file supplies for the alias: nothing when the
    file does not open or does not decode. *)
Definition fromConfig (alias key : string) : option string :=
  match decodedConfig with
  | Some (inl conf) => suppliedString (configured conf alias key)
  | _ => None
  end.

Definition portFromConfig (alias : string) : option Z :=
  match decodedConfig with
  | Some (inl conf) =>
      suppliedInt (fst (strconv.Atoi (configured conf alias "Port")))
  | _ => None
  end.

(** Among the candidates, one that reads and does not parse ([m], with the
    parser's error) comes before one that reads and parses ([v], giving
    [signer]); no other candidate can be read. *)
Definition oneMalformedThenOneValid (candidates : list string)
    (m : string) (err : error) (signer : Signer) : Prop :=
  exists pre mid post v,
    candidates = (pre ++ m :: mid ++ v :: post)%list
    /\ outcome m = Warned err
    /\ outcome v = Loaded signer
    /\ Forall (fun i => outcome i = Skipped) (pre ++ mid ++ post)%list.

(** No candidate can be read. *)
Definition noneReadable (candidates : list string) : Prop :=
  forall i, In i candidates -> forall key, fs e (fillHome i) <> Regular key.

End Tunnel.

Arguments Env : clear implicits.
Arguments AuthMethod : clear implicits.
Arguments ClientConfig : clear implicits.
Arguments runConfig : clear implicits.
Arguments Tunnel : clear implicits.
Arguments Outcome : clear implicits.


(** ** Concrete environments

    A small world to run the model on: the home directory is [/home/u], a
    configuration is a list of (alias, key, value) directives, a signer is
    named by the bytes of its key file and a host-key callback by the path
    of its store. *)

Module Example.

Definition Directives : Type := list (string * string * string).

Fixpoint lookupFile (files : list (string * Node)) (name : string) : Node :=
  match files with
  | [] => NoEntry
  | (n, node) :: rest => if String.eqb n name then node else lookupFile rest name
  end.

Fixpoint getDirective (conf : Directives) (alias key : string) : string :=
  match conf with
  | [] => ""
  | (a, k, v) :: rest =>
      if String.eqb a alias && String.eqb k key then v
      else getDirective rest alias key
  end.

Fixpoint joinPath (elems : list string) : string :=
  match elems with
  | [] => ""
  | [x] => x
  | x :: rest => x ++ "/" ++ joinPath rest
  end.

Definition process : Process :=
  {| GOOS := "linux";
     Getenv := fun name => if String.eqb name "HOME" then "/home/u" else "";
     Now := fun _ _ => "12:00:00" |}.

(** The bytes [corrupt] do not parse as a configuration; any other file
    content stands for the directives [conf]. *)
Definition env (files : list (string * Node)) (conf : Directives)
  : Env Directives string string :=
  {| proc := process;
     filepath_Join := joinPath;
     fs := lookupFile files;
     ssh_config_parse := fun data =>
       if String.eqb data "corrupt"
       then inr "ssh_config: unexpected token"
       else inl conf;
     ssh_config_Get := fun c alias key => (getDirective c alias key, None);
     ssh_ParsePrivateKey := fun data =>
       if String.prefix "KEY" data then inl data
       else inr "ssh: no key found";
     knownhosts_New := fun name =>
       match lookupFile files name with
       | Regular _ => inl name
       | _ => inr ("open " ++ name ++ ": no such file or directory")
       end |}.

Definition world0 : World :=
  {| logState := {| log.writer := {| log.inner := log.OtherWriter |};
                    log.ticks := 0; log.written := [] |};
     calls := [] |}.

Definition tunnel (host user : string) (port : Z) (identityFile localAddr : string)
  : Tunnel string string :=
  {| Host := host; User := user; Port := port; IdentityFile := identityFile;
     LocalAddress := localAddr; RemoteAddress := "localhost:5432"; rc := None |}.

Definition configFile : string := "/home/u/.ssh/config".
Definition knownHosts : string := "/home/u/.ssh/known_hosts".
Definition idRsa : string := "/home/u/.ssh/id_rsa".
Definition idEd25519 : string := "/home/u/.ssh/id_ed25519".

(** [myhost] is configured with host name, user and port. *)
Definition myhostConf : Directives :=
  [("myhost", "HostName", "example.com"); ("myhost", "User", "alice");
   ("myhost", "Port", "2222")].

(** A usable home: configuration, known hosts, a malformed RSA key and a
    valid Ed25519 key. *)
Definition home : list (string * Node) :=
  [(configFile, Regular "Host myhost");
   (knownHosts, Regular "example.com ssh-ed25519 AAAA");
   (idRsa, Regular "garbage");
   (idEd25519, Regular "KEY ed25519")].

(** The same home without a known-hosts store. *)
Definition homeWithoutKnownHosts : list (string * Node) :=
  [(configFile, Regular "Host myhost");
   (idRsa, Regular "garbage");
   (idEd25519, Regular "KEY ed25519")].

(** A home without any key file. *)
Definition homeWithoutKeys : list (string * Node) :=
  [(configFile, Regular "Host myhost");
   (knownHosts, Regular "example.com ssh-ed25519 AAAA")].

(** A home whose configuration file may not be read. *)
Definition homeDeniedConfig : list (string * Node) :=
  [(configFile, Denied);
   (knownHosts, Regular "example.com ssh-ed25519 AAAA");
   (idEd25519, Regular "KEY ed25519")].

(** A home whose configuration file does not parse. *)
Definition homeCorruptConfig : list (string * Node) :=
  [(configFile, Regular "corrupt");
   (knownHosts, Regular "example.com ssh-ed25519 AAAA");
   (idEd25519, Regular "KEY ed25519")].

(** Port texts that are not ports. *)
Definition wordPortConf : Directives :=
  [("word", "User", "carol"); ("word", "Port", "ssh")].

Definition longPortConf : Directives :=
  [("long", "User", "carol"); ("long", "Port", "99999999999999999999x")].

(** A log file that has just reached 128 KiB, one a little below it, and
    one beyond it on which [Truncate] fails. *)
Definition ripeFile : log.File :=
  {| log.size := 131072; log.offset := 131072;
     log.statFails := false; log.truncateFails := false |}.

Definition nearlyRipeFile : log.File :=
  {| log.size := 131070; log.offset := 131070;
     log.statFails := false; log.truncateFails := false |}.

Definition fullPipe : log.File :=
  {| log.size := 200000; log.offset := 200000;
     log.statFails := false; log.truncateFails := true |}.

Definition loggingTo (f : log.File) : log.State :=
  {| log.writer := {| log.inner := log.FileWriter f |};
     log.ticks := 0; log.written := [] |}.

(** A home whose RSA key is valid. *)
Definition homeWithRsa : list (string * Node) :=
  [(configFile, Regular "Host myhost");
   (knownHosts, Regular "example.com ssh-ed25519 AAAA");
   (idRsa, Regular "KEY rsa")].

(** Ports written with and without a sign. *)
Definition signedPortConf : Directives :=
  [("minus", "User", "carol"); ("minus", "Port", "-2222")].

End Example.


(** * Properties *)

(** ** Strings and formatting *)

Lemma append_empty_r (s : string) : s ++ "" = s.
Proof. induction s as [|c s IH]; simpl; [reflexivity | now rewrite IH]. Qed.

Lemma Contains_app_r (a b sub : string) :
  strings.Contains b sub = true -> strings.Contains (a ++ b) sub = true.
Proof.
  intros Hb. induction a as [|c a IH]; simpl; [exact Hb |].
  rewrite IH. apply orb_true_r.
Qed.

Lemma Contains_localhost (a : string) :
  strings.Contains ("localhost:" ++ a) ":" = true.
Proof.
  change ("localhost:" ++ a) with ("localhost" ++ (":" ++ a)).
  apply Contains_app_r. simpl. destruct a; reflexivity.
Qed.

Lemma Errorf_decode (err : error) :
  fmt.Errorf "could not decode ssh config: %v" [err]
  = "could not decode ssh config: " ++ err.
Proof. unfold fmt.Errorf. simpl. now rewrite append_empty_r. Qed.

Lemma Errorf_parse (err : error) :
  fmt.Errorf "could not parse SSH config: %v" [err]
  = "could not parse SSH config: " ++ err.
Proof. unfold fmt.Errorf. simpl. now rewrite append_empty_r. Qed.

Lemma Errorf_client (err : error) :
  fmt.Errorf "could not make client config: %v" [err]
  = "could not make client config: " ++ err.
Proof. unfold fmt.Errorf. simpl. now rewrite append_empty_r. Qed.

Lemma Sprintf_parse_warning (i err : string) :
  fmt.Sprintf "Unable to parse private key %v: %v" [i; err]
  = "Unable to parse private key " ++ i ++ ": " ++ err.
Proof. simpl. now rewrite append_empty_r. Qed.

(** From here on formatting is used through the equations above. *)
Arguments fmt.Sprintf : simpl never.
Arguments fmt.Errorf : simpl never.

(** ** [strconv.Atoi] on malformed text *)

Lemma fastLoop_nonDigit (m : nat) (s : string) :
  forall n, nonDigitWithin m s = true -> strconv.fastLoop s n = None.
Proof.
  revert s. induction m as [|m IH]; intros [|c s] n H; simpl in *;
    try discriminate.
  destruct (strconv.digit c); [now apply IH | reflexivity].
Qed.

Lemma digit_bound (c : ascii) (d : Z) :
  strconv.digit c = Some d -> 0 <= d <= 9.
Proof.
  unfold strconv.digit. intros H.
  destruct (48 <=? Z.of_nat (nat_of_ascii c)) eqn:E1; simpl in H;
    [| discriminate].
  destruct (Z.of_nat (nat_of_ascii c) <=? 57) eqn:E2; [| discriminate].
  injection H as <-. lia.
Qed.

Lemma parseUintLoop_nonDigit (m : nat) :
  forall (s : string) (k : nat) (n : Z),
    nonDigitWithin m s = true ->
    (k + m <= 20)%nat ->
    0 <= n < 10 ^ Z.of_nat k ->
    strconv.parseUintLoop s n = (0, Some strconv.ErrSyntax).
Proof.
  induction m as [|m IH]; intros [|c s] k n H Hk Hn; simpl in H;
    try discriminate.
  simpl. destruct (strconv.digit c) as [d|] eqn:Ed; [| reflexivity].
  pose proof (digit_bound _ _ Ed) as Hd.
  assert (Hm : (1 <= m)%nat) by (destruct m; [destruct s; discriminate | lia]).
  assert (Hpow : 10 ^ Z.of_nat k <= 10 ^ 18)
    by (apply Z.pow_le_mono_r; lia).
  assert (Hn10 : 0 <= n * 10 + d < 10 ^ Z.of_nat (S k)).
  { rewrite Nat2Z.inj_succ, Z.pow_succ_r by lia. lia. }
  assert (Hpow' : 10 ^ Z.of_nat (S k) <= 10 ^ 19)
    by (apply Z.pow_le_mono_r; lia).
  change (10 ^ 18) with 1000000000000000000 in Hpow.
  change (10 ^ 19) with 10000000000000000000 in Hpow'.
  unfold strconv.maxUint64, strconv.to_uint64.
  change (2 ^ 64) with 18446744073709551616.
  change ((18446744073709551616 - 1) / 10 + 1) with 1844674407370955162.
  destruct (1844674407370955162 <=? n) eqn:Ec; [lia |].
  rewrite (Z.mod_small (n * 10)) by lia.
  rewrite (Z.mod_small (n * 10 + d)) by lia.
  destruct (n * 10 + d <? n * 10) eqn:E1; [lia |].
  destruct (18446744073709551616 - 1 <? n * 10 + d) eqn:E2; [lia |].
  simpl. apply (IH s (S k)); [exact H | lia | exact Hn10].
Qed.

Lemma Atoi_malformedEarly (s : string) :
  malformedEarly s = true -> strconv.Atoi s = (0, Some strconv.ErrSyntax).
Proof.
  unfold malformedEarly, strconv.Atoi. intros H.
  destruct s as [|c0 s1]; [reflexivity |].
  cbv zeta. remember 20%nat as m eqn:Hm.
  assert (Hloop : forall body, nonDigitWithin m body = true ->
            strconv.parseUintLoop body 0 = (0, Some strconv.ErrSyntax)).
  { intros body Hb. apply (parseUintLoop_nonDigit m body 0%nat 0 Hb);
      [subst m; lia | simpl; lia]. }
  assert (Hslow : strconv.ParseInt (String c0 s1) = (0, Some strconv.ErrSyntax)).
  { unfold strconv.ParseInt, strconv.ParseUint. simpl in H.
    destruct (strconv.isSign c0).
    - destruct s1 as [|c1 s2]; [reflexivity |]. now rewrite (Hloop _ H).
    - now rewrite (Hloop _ H). }
  destruct ((0 <? Z.of_nat (String.length (String c0 s1)))
            && (Z.of_nat (String.length (String c0 s1)) <? 19)).
  - simpl in H. destruct (strconv.isSign c0).
    + destruct s1 as [|c1 s2]; [reflexivity |].
      now rewrite (fastLoop_nonDigit m _ 0 H).
    + now rewrite (fastLoop_nonDigit m _ 0 H).
  - now rewrite Hslow.
Qed.

Lemma malformedEarly_not_valid (s : string) :
  malformedEarly s = true -> validDecimal s = false.
Proof.
  unfold malformedEarly, validDecimal.
  destruct (unsigned s) as [|c b]; [reflexivity |].
  generalize (String c b). generalize 20%nat.
  induction n as [|n IH]; intros [|c' s'] H; simpl in *; try discriminate.
  destruct (strconv.digit c'); [now apply IH | reflexivity].
Qed.

Lemma ParseInt_syntax_zero (s : string) :
  snd (strconv.ParseInt s) = Some strconv.ErrSyntax ->
  fst (strconv.ParseInt s) = 0.
Proof.
  unfold strconv.ParseInt. destruct s as [|c0 s1]; [reflexivity |].
  cbv zeta.
  destruct (strconv.ParseUint (if strconv.isSign c0 then s1 else String c0 s1))
    as [un [[|]|]]; cbn [fst snd]; try reflexivity;
    repeat match goal with
           | |- context [if ?c then _ else _] => destruct c
           end; cbn [fst snd]; congruence.
Qed.

Lemma Atoi_syntax_zero (s : string) :
  snd (strconv.Atoi s) = Some strconv.ErrSyntax -> fst (strconv.Atoi s) = 0.
Proof.
  unfold strconv.Atoi. cbv zeta.
  destruct ((0 <? Z.of_nat (String.length s))
            && (Z.of_nat (String.length s) <? 19)).
  - destruct s as [|c0 s1]; [reflexivity |].
    destruct (if strconv.isSign c0 then s1 else String c0 s1) as [|c b];
      [reflexivity |].
    destruct (strconv.fastLoop (String c b) 0); cbn [fst snd];
      [discriminate | reflexivity].
  - pose proof (ParseInt_syntax_zero s) as H.
    destruct (strconv.ParseInt s) as [i64 err]. cbn [fst snd] in *.
    intros Herr. now rewrite (H Herr).
Qed.

(** ** The package [tunnel] *)

Section Properties.

Context {Config Signer HostKeyCallback : Type}.
Variable e : Env Config Signer HostKeyCallback.

Implicit Types (t : Tunnel Signer HostKeyCallback).
Implicit Types (r : runConfig Signer HostKeyCallback).
Implicit Types (w : World).

Local Notation "'configPath'" := (sshConfigPath e "config").
Local Notation "'knownHostsPath'" := (sshConfigPath e "known_hosts").

Lemma newCalls_addCalls (w : World) (cs : list Call) :
  newCalls w (addCalls w cs) = cs.
Proof.
  unfold newCalls, addCalls. simpl.
  rewrite skipn_app, skipn_all, Nat.sub_diag. reflexivity.
Qed.

Lemma addCalls_addCalls (w : World) (cs ds : list Call) :
  addCalls (addCalls w cs) ds = addCalls w (cs ++ ds).
Proof. unfold addCalls. simpl. now rewrite <- app_assoc. Qed.

(** *** Reading the SSH configuration *)

(** The three ways [parseSSHConf] ends: the file does not open, it does not
    decode, or it decodes and the four fields are set from it. *)
Lemma parseSSHConf_cases (alias : string) r w :
  match decodedConfig e with
  | None =>
      parseSSHConf e alias r w = ((r, None), addCalls w [CallOpen configPath])
  | Some (inr err) =>
      parseSSHConf e alias r w
      = ((r, Some ("could not decode ssh config: " ++ err)),
         addCalls w [CallOpen configPath])
  | Some (inl conf) =>
      exists r',
        parseSSHConf e alias r w
        = ((r', None), addCalls w [CallOpen configPath; CallClose configPath])
        /\ identityFile r' = configured e conf alias "IdentityFile"
        /\ user r' = configured e conf alias "User"
        /\ port r' = fst (strconv.Atoi (configured e conf alias "Port"))
        /\ hostName r' = configured e conf alias "HostName"
  end.
Proof.
  unfold decodedConfig, parseSSHConf, bind, os_Open, Close, call, ret, addCalls.
  cbv zeta.
  destruct (fs e configPath) as [| | |data]; simpl; try reflexivity.
  - now rewrite Errorf_decode.
  - destruct (ssh_config_Decode e _) as [conf|err] eqn:Ed.
    + eexists. split; [simpl; rewrite <- app_assoc; reflexivity |].
      repeat split.
    + now rewrite Errorf_decode.
Qed.

(** [parseSSHConf] writes nothing to the sink and reads no key file. *)
Lemma parseSSHConf_quiet (alias : string) r w :
  forall res w', parseSSHConf e alias r w = (res, w') ->
    logState w' = logState w /\
    forall name, ~ In (CallReadFile name) (newCalls w w').
Proof.
  intros res w' H. pose proof (parseSSHConf_cases alias r w) as Hc.
  destruct (decodedConfig e) as [[conf|err]|].
  - destruct Hc as (r' & Hp & _). rewrite Hp in H. injection H as _ <-.
    split; [reflexivity |]. intros name. rewrite newCalls_addCalls.
    simpl. intros [Hx|[Hx|[]]]; discriminate.
  - rewrite Hc in H. injection H as _ <-.
    split; [reflexivity |]. intros name. rewrite newCalls_addCalls.
    simpl. intros [Hx|[]]; discriminate.
  - rewrite Hc in H. injection H as _ <-.
    split; [reflexivity |]. intros name. rewrite newCalls_addCalls.
    simpl. intros [Hx|[]]; discriminate.
Qed.

(** *** The precedence of the sources *)

Ltac split_overrides t r :=
  unfold overrideAndDefault;
  destruct (String.eqb (User t) "") eqn:?;
  destruct (Port t =? 0) eqn:?;
  destruct (String.eqb (IdentityFile t) "") eqn:?;
  destruct (port r =? 0) eqn:?;
  destruct (String.eqb (hostName r) "") eqn:?;
  repeat (cbn;
          match goal with
          | H : ?c = _ |- context [if ?c then _ else _] => rewrite H
          end);
  cbn; try reflexivity; try congruence.

Lemma overrideAndDefault_user t r :
  user (overrideAndDefault t r) = if String.eqb (User t) "" then user r else User t.
Proof. split_overrides t r. Qed.

Lemma overrideAndDefault_identityFile t r :
  identityFile (overrideAndDefault t r)
  = if String.eqb (IdentityFile t) "" then identityFile r else IdentityFile t.
Proof. split_overrides t r. Qed.

Lemma overrideAndDefault_port t r :
  port (overrideAndDefault t r)
  = if Port t =? 0 then (if port r =? 0 then sshPort else port r) else Port t.
Proof. split_overrides t r. Qed.

Lemma overrideAndDefault_hostName t r :
  hostName (overrideAndDefault t r)
  = if String.eqb (hostName r) "" then Host t else hostName r.
Proof. split_overrides t r. Qed.

(** *** The scan of the candidate key files *)

Lemma Warningf_written (format : string) (a : list string) (st : log.State) :
  exists ts,
    log.written (log.Warningf (proc e) format a st)
    = (log.written st ++ [log.warningLine (proc e) ts (fmt.Sprintf format a)])%list.
Proof. unfold log.Warningf, log.timestamp, log.Write. cbn. eexists. reflexivity. Qed.

Lemma loaded_cons (i : string) (rest : list string) :
  loaded e (i :: rest)
  = ((match outcome e i with Loaded s => [s] | _ => [] end) ++ loaded e rest)%list.
Proof. reflexivity. Qed.

Lemma warned_cons (i : string) (rest : list string) :
  warned e (i :: rest)
  = ((match outcome e i with Warned err => [(i, err)] | _ => [] end)
       ++ warned e rest)%list.
Proof. reflexivity. Qed.

(** The scan reads every candidate in order, keeps the signers of those
    that parse, in order, and writes one warning line for each candidate
    that reads and does not parse, in order, and nothing else. *)
Lemma scanKeys_spec (candidates : list string) :
  forall (signers : list Signer) w,
  exists w' lines,
    scanKeys e candidates signers w = ((signers ++ loaded e candidates)%list, w')
    /\ calls w'
       = (calls w ++ map (fun i => CallReadFile (fillHome e i)) candidates)%list
    /\ log.written (logState w') = (log.written (logState w) ++ lines)%list
    /\ Forall2 (isParseWarning e) (warned e candidates) lines.
Proof.
  induction candidates as [|i rest IH]; intros signers w.
  - exists w, []. cbn. rewrite !app_nil_r. repeat split. constructor.
  - rewrite loaded_cons, warned_cons. unfold outcome at 1 2.
    cbn [scanKeys]. unfold os_ReadFile, call, ret, bind. cbn beta iota zeta.
    destruct (fs e (fillHome e i)) as [| | |key].
    1-3: (edestruct IH as (w' & lines & Hs & Hc & Hw & Hf);
          exists w', lines; rewrite Hs, Hc, Hw; cbn;
          rewrite <- app_assoc; repeat split; exact Hf).
    destruct (ssh_ParsePrivateKey e key) as [signer|err].
    + edestruct IH as (w' & lines & Hs & Hc & Hw & Hf).
      exists w', lines. rewrite Hs, Hc, Hw. cbn.
      rewrite <- !app_assoc. repeat split. exact Hf.
    + unfold liftLog. cbn [fst snd].
      edestruct IH as (w' & lines & Hs & Hc & Hw & Hf).
      destruct (Warningf_written "Unable to parse private key %v: %v"
                  [i; err] (logState w)) as (ts & Hts).
      exists w', (log.warningLine (proc e) ts
                    (fmt.Sprintf "Unable to parse private key %v: %v" [i; err])
                  :: lines).
      rewrite Hs, Hc, Hw. cbn [logState calls]. rewrite Hts.
      rewrite <- !app_assoc. repeat split.
      constructor; [| exact Hf].
      exists ts. now rewrite Sprintf_parse_warning.
Qed.

Lemma newWrites_app w w' (lines : list string) :
  log.written (logState w') = (log.written (logState w) ++ lines)%list ->
  newWrites w w' = lines.
Proof.
  unfold newWrites. intros ->.
  rewrite skipn_app, skipn_all, Nat.sub_diag. reflexivity.
Qed.

Lemma newCalls_app w w' (cs : list Call) :
  calls w' = (calls w ++ cs)%list -> newCalls w w' = cs.
Proof.
  unfold newCalls. intros ->.
  rewrite skipn_app, skipn_all, Nat.sub_diag. reflexivity.
Qed.

Lemma loaded_app (a b : list string) :
  loaded e (a ++ b) = (loaded e a ++ loaded e b)%list.
Proof. unfold loaded. apply flat_map_app. Qed.

Lemma warned_app (a b : list string) :
  warned e (a ++ b) = (warned e a ++ warned e b)%list.
Proof. unfold warned. apply flat_map_app. Qed.

Lemma skipped_loaded (l : list string) :
  Forall (fun i => outcome e i = Skipped) l -> loaded e l = [].
Proof.
  induction 1 as [|i l Hi _ IH]; [reflexivity |].
  rewrite loaded_cons, Hi, IH. reflexivity.
Qed.

Lemma skipped_warned (l : list string) :
  Forall (fun i => outcome e i = Skipped) l -> warned e l = [].
Proof.
  induction 1 as [|i l Hi _ IH]; [reflexivity |].
  rewrite warned_cons, Hi, IH. reflexivity.
Qed.

Lemma noneReadable_skipped (l : list string) :
  noneReadable e l -> Forall (fun i => outcome e i = Skipped) l.
Proof.
  intros H. apply Forall_forall. intros i Hi. unfold outcome.
  specialize (H i Hi).
  destruct (fs e (fillHome e i)) as [| | |key]; try reflexivity.
  now destruct (H key).
Qed.

(** A scan without a malformed candidate leaves the sink alone. *)
Lemma scanKeys_quiet (candidates : list string) :
  warned e candidates = [] ->
  forall (signers : list Signer) w res w',
    scanKeys e candidates signers w = (res, w') -> logState w' = logState w.
Proof.
  induction candidates as [|i rest IH]; intros Hw signers w res w' H.
  - cbn in H. now injection H as _ <-.
  - rewrite warned_cons in Hw. apply app_eq_nil in Hw. destruct Hw as [Hi Hr].
    unfold outcome in Hi.
    cbn [scanKeys] in H. unfold os_ReadFile, call, ret, bind in H.
    cbn beta iota zeta in H.
    destruct (fs e (fillHome e i)) as [| | |key];
      try (apply (IH Hr) in H; exact H).
    destruct (ssh_ParsePrivateKey e key) as [signer|err]; [| discriminate].
    apply (IH Hr) in H. exact H.
Qed.

(** *** The client configuration *)

Lemma Errorf_plain_no_keys :
  fmt.Errorf "no key files found." [] = "no key files found.".
Proof. reflexivity. Qed.

(** [makeClientConfig] in terms of the outcome of the scan. *)
Lemma makeClientConfig_spec (user identityFile : string) w :
  exists w1 lines,
    scanKeys e (identityFile :: defaultKeys) [] w
    = (loaded e (identityFile :: defaultKeys), w1)
    /\ calls w1
       = (calls w ++ map (fun i => CallReadFile (fillHome e i))
                        (identityFile :: defaultKeys))%list
    /\ log.written (logState w1) = (log.written (logState w) ++ lines)%list
    /\ Forall2 (isParseWarning e) (warned e (identityFile :: defaultKeys)) lines
    /\ makeClientConfig e user identityFile w
       = match loaded e (identityFile :: defaultKeys) with
         | [] => (inr "no key files found.", w1)
         | signers =>
             (match knownhosts_New e knownHostsPath with
              | inr err => inr err
              | inl cb =>
                  inl {| ssh_User := user; ssh_Auth := [PublicKeys signers];
                         ssh_HostKeyCallback := cb;
                         ssh_Timeout := sshConnTimeout |}
              end,
              addCalls w1 [CallKnownHosts knownHostsPath])
         end.
Proof.
  destruct (scanKeys_spec (identityFile :: defaultKeys) [] w)
    as (w1 & lines & Hs & Hc & Hw & Hf).
  rewrite app_nil_l in Hs.
  exists w1, lines. repeat split; try assumption.
  unfold makeClientConfig, bind, call, ret.
  change ([identityFile] ++ defaultKeys)%list with (identityFile :: defaultKeys).
  rewrite Hs.
  destruct (loaded e (identityFile :: defaultKeys)) as [|s0 ss]; cbn.
  - reflexivity.
  - unfold addCalls.
    destruct (knownhosts_New e knownHostsPath); reflexivity.
Qed.

(** *** [makeRunConfig], stage by stage *)

Lemma makeRunConfig_parse_error t w (entry : runConfig Signer HostKeyCallback)
    (err : error) w1 :
  parseSSHConf e (Host t) runConfig0 w = ((entry, Some err), w1) ->
  makeRunConfig e t w = ((t, Some ("could not parse SSH config: " ++ err)), w1).
Proof.
  intros H. unfold makeRunConfig, bind, ret. rewrite H.
  now rewrite Errorf_parse.
Qed.

Lemma makeRunConfig_parsed t w (entry : runConfig Signer HostKeyCallback) w1 :
  parseSSHConf e (Host t) runConfig0 w = ((entry, None), w1) ->
  makeRunConfig e t w
  = let r := overrideAndDefault t entry in
    match validate r with
    | Some err => ((t, Some err), w1)
    | None =>
        let '(made, w2) := makeClientConfig e (user r) (identityFile r) w1 in
        match made with
        | inr err => ((t, Some ("could not make client config: " ++ err)), w2)
        | inl cc =>
            ((set_rc t
                (set_localAddress
                   (set_remoteAddress (set_clientConfig r (Some cc))
                      (RemoteAddress t))
                   (qualifyLocal (LocalAddress t))),
              None), w2)
        end
    end.
Proof.
  intros H. unfold makeRunConfig, bind, ret. rewrite H. cbv zeta.
  destruct (validate (overrideAndDefault t entry)); [reflexivity |].
  destruct (makeClientConfig e _ _ w1) as [[cc|err] w2];
    [reflexivity | now rewrite Errorf_client].
Qed.

Lemma validate_None r :
  validate r = None <-> hostName r <> "" /\ user r <> "" /\ port r <> 0.
Proof.
  unfold validate.
  destruct (String.eqb_spec (hostName r) ""), (String.eqb_spec (user r) ""),
    (Z.eqb_spec (port r) 0); split; try discriminate; try tauto.
Qed.

Lemma parseSSHConf_total (alias : string) r w :
  (forall err, decodedConfig e <> Some (inr err)) ->
  exists entry w1,
    parseSSHConf e alias r w = ((entry, None), w1)
    /\ logState w1 = logState w
    /\ suppliedString (user entry)
       = match decodedConfig e with
         | Some _ => fromConfig e alias "User"
         | None => suppliedString (user r)
         end
    /\ suppliedInt (port entry)
       = match decodedConfig e with
         | Some _ => portFromConfig e alias
         | None => suppliedInt (port r)
         end
    /\ suppliedString (identityFile entry)
       = match decodedConfig e with
         | Some _ => fromConfig e alias "IdentityFile"
         | None => suppliedString (identityFile r)
         end.
Proof.
  intros Hok. pose proof (parseSSHConf_cases alias r w) as Hc.
  unfold fromConfig, portFromConfig.
  destruct (decodedConfig e) as [[conf|err]|].
  - destruct Hc as (r' & Hp & Hi & Hu & Hpo & _).
    exists r'. eexists. split; [exact Hp |].
    rewrite Hi, Hu, Hpo. repeat split.
  - now destruct (Hok err).
  - exists r. eexists. split; [exact Hc |]. repeat split.
Qed.

(** *** The claims *)

(** C1: each resolved field (user, port, identity file) is the value of the
    highest-precedence source that supplies it: the field set on the
    declaration, then the value the configuration file has for the alias,
    then the default (22 for the port, none for the others).  The run
    configuration so resolved is the one [makeRunConfig] validates, the one
    whose user and identity file it gives to [makeClientConfig], and the
    one it stores in the tunnel when the resolution succeeds. *)
Theorem C1_precedence_of_sources t w :
  (forall err, decodedConfig e <> Some (inr err)) ->
  exists entry w1,
    parseSSHConf e (Host t) runConfig0 w = ((entry, None), w1)
    /\ let r := overrideAndDefault t entry in
       suppliedString (user r)
       = firstSupplied [suppliedString (User t); fromConfig e (Host t) "User"]
       /\ Some (port r)
          = firstSupplied [suppliedInt (Port t); portFromConfig e (Host t);
                           Some 22]
       /\ suppliedString (identityFile r)
          = firstSupplied [suppliedString (IdentityFile t);
                           fromConfig e (Host t) "IdentityFile"]
       /\ makeRunConfig e t w
          = match validate r with
            | Some err => ((t, Some err), w1)
            | None =>
                let '(made, w2) :=
                  makeClientConfig e (user r) (identityFile r) w1 in
                match made with
                | inr err =>
                    ((t, Some ("could not make client config: " ++ err)), w2)
                | inl cc =>
                    ((set_rc t
                        (set_localAddress
                           (set_remoteAddress (set_clientConfig r (Some cc))
                              (RemoteAddress t))
                           (qualifyLocal (LocalAddress t))),
                      None), w2)
                end
            end
       /\ forall t' w',
            makeRunConfig e t w = ((t', None), w') ->
            exists r', rc t' = Some r' /\ user r' = user r
                       /\ port r' = port r
                       /\ identityFile r' = identityFile r.
Proof.
  intros Hok.
  destruct (parseSSHConf_total (Host t) runConfig0 w Hok)
    as (entry & w1 & Hp & _ & Hu & Hpo & Hi).
  exists entry, w1. split; [exact Hp |]. cbv zeta.
  assert (Hu' : suppliedString (user entry) = fromConfig e (Host t) "User").
  { rewrite Hu. unfold fromConfig. now destruct (decodedConfig e). }
  assert (Hpo' : suppliedInt (port entry) = portFromConfig e (Host t)).
  { rewrite Hpo. unfold portFromConfig. now destruct (decodedConfig e). }
  assert (Hi' : suppliedString (identityFile entry)
                = fromConfig e (Host t) "IdentityFile").
  { rewrite Hi. unfold fromConfig. now destruct (decodedConfig e). }
  rewrite <- Hu', <- Hpo', <- Hi'.
  split; [| split; [| split; [| split]]].
  - rewrite overrideAndDefault_user. unfold suppliedString at 2. cbn.
    destruct (String.eqb (User t) "") eqn:E;
      [now destruct (suppliedString (user entry)) |].
    unfold suppliedString. now rewrite E.
  - rewrite overrideAndDefault_port. unfold suppliedInt. cbn.
    destruct (Port t =? 0); [| reflexivity].
    destruct (port entry =? 0); reflexivity.
  - rewrite overrideAndDefault_identityFile. unfold suppliedString at 2. cbn.
    destruct (String.eqb (IdentityFile t) "") eqn:E;
      [now destruct (suppliedString (identityFile entry)) |].
    unfold suppliedString. now rewrite E.
  - exact (makeRunConfig_parsed _ _ _ _ Hp).
  - intros t' w' Hrun. rewrite (makeRunConfig_parsed _ _ _ _ Hp) in Hrun.
    cbv zeta in Hrun.
    destruct (validate (overrideAndDefault t entry)); [discriminate |].
    destruct (makeClientConfig e _ _ w1) as [[cc|err] w2]; [| discriminate].
    injection Hrun as <- _. eexists. split; [reflexivity |].
    cbn. repeat split.
Qed.

(** C2 (as amended): for a declaration with a non-empty alias for which no
    entry is found, and with no user, port or identity file set, the alias
    is taken as host name, the port defaults to 22, the user stays empty,
    and resolution fails with the error that names the user. *)
Theorem C2_unmatched_alias_names_user t w :
  noEntryFor e (Host t) ->
  Host t <> "" -> User t = "" -> Port t = 0 -> IdentityFile t = "" ->
  exists entry w1,
    parseSSHConf e (Host t) runConfig0 w = ((entry, None), w1)
    /\ hostName (overrideAndDefault t entry) = Host t
    /\ port (overrideAndDefault t entry) = 22
    /\ user (overrideAndDefault t entry) = ""
    /\ makeRunConfig e t w = ((t, Some "no user specified."), w1).
Proof.
  intros Hno Hh Hu Hp Hi.
  pose proof (parseSSHConf_cases (Host t) runConfig0 w) as Hc.
  assert (Hentry : exists entry w1,
             parseSSHConf e (Host t) runConfig0 w = ((entry, None), w1)
             /\ hostName entry = "" /\ user entry = "" /\ port entry = 0).
  { unfold noEntryFor in Hno. unfold decodedConfig in Hc. cbv zeta in Hc.
    destruct (fs e configPath) as [| | |data].
    - exists runConfig0. eexists. split; [exact Hc |]. repeat split.
    - exists runConfig0. eexists. split; [exact Hc |]. repeat split.
    - destruct Hno.
    - destruct Hno as (conf & Hparse & Hget).
      unfold ssh_config_Decode in Hc. cbn in Hc. rewrite Hparse in Hc.
      destruct Hc as (r' & Hpr & _ & Hu' & Hpo' & Hh').
      unfold configured in *. rewrite Hget in *.
      exists r'. eexists. split; [exact Hpr |].
      rewrite Hh', Hu', Hpo'. repeat split. }
  destruct Hentry as (entry & w1 & Hpr & Hh' & Hu' & Hpo').
  assert (Hhost : hostName (overrideAndDefault t entry) = Host t)
    by (rewrite overrideAndDefault_hostName, Hh'; reflexivity).
  assert (Hport : port (overrideAndDefault t entry) = 22)
    by (rewrite overrideAndDefault_port, Hp, Hpo'; reflexivity).
  assert (Huser : user (overrideAndDefault t entry) = "")
    by (rewrite overrideAndDefault_user, Hu, Hu'; reflexivity).
  exists entry, w1. repeat split; try assumption.
  rewrite (makeRunConfig_parsed _ _ _ _ Hpr). cbv zeta.
  unfold validate. rewrite Hhost, Huser.
  destruct (String.eqb_spec (Host t) ""); [contradiction | reflexivity].
Qed.

Lemma parseSSHConf_calls (alias : string) r w :
  forall res w1, parseSSHConf e alias r w = (res, w1) ->
    exists cs, calls w1 = (calls w ++ cs)%list
               /\ forall name, ~ In (CallReadFile name) cs.
Proof.
  intros res w1 H. pose proof (parseSSHConf_cases alias r w) as Hc.
  destruct (decodedConfig e) as [[conf|err]|].
  - destruct Hc as (r' & Hp & _). rewrite Hp in H. injection H as _ <-.
    eexists. split; [reflexivity |].
    intros name [Hx|[Hx|[]]]; discriminate.
  - rewrite Hc in H. injection H as _ <-. eexists. split; [reflexivity |].
    intros name [Hx|[]]; discriminate.
  - rewrite Hc in H. injection H as _ <-. eexists. split; [reflexivity |].
    intros name [Hx|[]]; discriminate.
Qed.

Lemma makeClientConfig_calls (user identityFile : string) w :
  forall made w', makeClientConfig e user identityFile w = (made, w') ->
    exists cs, calls w'
               = (calls w ++ CallReadFile (fillHome e identityFile) :: cs)%list.
Proof.
  intros made w' H.
  destruct (makeClientConfig_spec user identityFile w)
    as (w1 & lines & _ & Hc & _ & _ & Hm).
  rewrite Hm in H. cbn [map] in Hc.
  destruct (loaded e (identityFile :: defaultKeys)).
  - injection H as _ <-. eexists. exact Hc.
  - injection H as _ <-. unfold addCalls. cbn [calls]. rewrite Hc.
    rewrite <- app_assoc. cbn [app]. eexists. reflexivity.
Qed.

(** C3: [makeClientConfig] runs in a resolution exactly when the SSH
    configuration was read and the run configuration passed validation;
    whenever it runs, host name and user are non-empty and the port is
    non-zero, and it is given the user and identity file of that validated
    run configuration. *)
Theorem C3_client_config_only_after_validation t w
    (res : Tunnel Signer HostKeyCallback * option error) w' :
  makeRunConfig e t w = (res, w') ->
  (ranMakeClientConfig w w' <->
   exists entry w1 made,
     parseSSHConf e (Host t) runConfig0 w = ((entry, None), w1)
     /\ validate (overrideAndDefault t entry) = None
     /\ makeClientConfig e (user (overrideAndDefault t entry))
          (identityFile (overrideAndDefault t entry)) w1 = (made, w'))
  /\ (ranMakeClientConfig w w' ->
      exists entry w1,
        parseSSHConf e (Host t) runConfig0 w = ((entry, None), w1)
        /\ hostName (overrideAndDefault t entry) <> ""
        /\ user (overrideAndDefault t entry) <> ""
        /\ port (overrideAndDefault t entry) <> 0).
Proof.
  intros Hrun.
  assert (Hiff : ranMakeClientConfig w w' <->
    exists entry w1 made,
      parseSSHConf e (Host t) runConfig0 w = ((entry, None), w1)
      /\ validate (overrideAndDefault t entry) = None
      /\ makeClientConfig e (user (overrideAndDefault t entry))
           (identityFile (overrideAndDefault t entry)) w1 = (made, w')).
  { destruct (parseSSHConf e (Host t) runConfig0 w) as [[entry perr] w1] eqn:Hp.
    destruct (parseSSHConf_calls _ _ _ _ _ Hp) as (cs & Hcs & Hnoread).
    split.
    - intros (name & Hin). destruct perr as [err|].
      + rewrite (makeRunConfig_parse_error _ _ _ _ _ Hp) in Hrun.
        injection Hrun as _ <-. rewrite (newCalls_app _ _ _ Hcs) in Hin.
        now destruct (Hnoread name).
      + rewrite (makeRunConfig_parsed _ _ _ _ Hp) in Hrun. cbv zeta in Hrun.
        destruct (validate (overrideAndDefault t entry)) eqn:Hv.
        * injection Hrun as _ <-. rewrite (newCalls_app _ _ _ Hcs) in Hin.
          now destruct (Hnoread name).
        * destruct (makeClientConfig e _ _ w1) as [made w2] eqn:Hm.
          exists entry, w1, made.
          split; [reflexivity | split; [exact Hv |]].
          rewrite Hm. destruct made; injection Hrun as _ <-; reflexivity.
    - intros (entry' & w1' & made & Hp' & Hv & Hm).
      injection Hp' as <- -> <-.
      destruct (makeClientConfig_calls _ _ _ _ _ Hm) as (ds & Hds).
      exists (fillHome e (identityFile (overrideAndDefault t entry))).
      rewrite Hcs, <- app_assoc in Hds.
      rewrite (newCalls_app _ _ _ Hds).
      apply in_or_app. right. left. reflexivity. }
  split; [exact Hiff |].
  intros Hran. apply Hiff in Hran.
  destruct Hran as (entry & w1 & made & Hp & Hv & _).
  exists entry, w1. split; [exact Hp |]. now apply validate_None.
Qed.

(** C4 (as amended): when none of the candidate key files (the identity
    file followed by the three default keys) can be read, the scan produces
    no signer and writes nothing to the sink, and [makeClientConfig] fails
    with the error [no key files found.]; a resolution whose configuration
    was read and whose run configuration passed validation fails with that
    error, wrapped. *)
Theorem C4_no_readable_key_file :
  (forall (user identityFile : string) w,
      noneReadable e (identityFile :: defaultKeys) ->
      exists w',
        scanKeys e (identityFile :: defaultKeys) [] w = ([], w')
        /\ makeClientConfig e user identityFile w
           = (inr ("no key files found" ++ "."), w')
        /\ logState w' = logState w)
  /\ (forall t w entry w1,
        parseSSHConf e (Host t) runConfig0 w = ((entry, None), w1) ->
        validate (overrideAndDefault t entry) = None ->
        noneReadable e (identityFile (overrideAndDefault t entry) :: defaultKeys) ->
        exists w',
          makeRunConfig e t w
          = ((t, Some ("could not make client config: "
                         ++ "no key files found" ++ ".")), w')).
Proof.
  assert (Hfirst : forall (user identityFile : string) w,
    noneReadable e (identityFile :: defaultKeys) ->
    exists w',
      scanKeys e (identityFile :: defaultKeys) [] w = ([], w')
      /\ makeClientConfig e user identityFile w
         = (inr ("no key files found" ++ "."), w')
      /\ logState w' = logState w).
  { intros user identityFile w Hnone.
    pose proof (noneReadable_skipped _ Hnone) as Hsk.
    destruct (makeClientConfig_spec user identityFile w)
      as (w1 & lines & Hs & _ & _ & _ & Hm).
    rewrite (skipped_loaded _ Hsk) in *.
    exists w1. split; [exact Hs | split; [exact Hm |]].
    exact (scanKeys_quiet _ (skipped_warned _ Hsk) _ _ _ _ Hs). }
  split; [exact Hfirst |].
  intros t w entry w1 Hp Hv Hnone.
  destruct (Hfirst (user (overrideAndDefault t entry)) _ w1 Hnone)
    as (w' & _ & Hm & _).
  exists w'. rewrite (makeRunConfig_parsed _ _ _ _ Hp). cbv zeta.
  rewrite Hv, Hm. reflexivity.
Qed.

(** C5 (as amended): a configuration file that opens and does not decode
    is fatal for the tunnel, the returned error wrapping the cause; a
    configuration file that does not open, because it is missing or because
    it may not be read, is no error and leaves the run configuration as it
    was; an alias without values in a decoded file is no error either and
    leaves the four fields empty or zero. *)
Theorem C5_configuration_file_errors :
  (forall t w err,
      decodedConfig e = Some (inr err) ->
      makeRunConfig e t w
      = ((t, Some ("could not parse SSH config: "
                     ++ "could not decode ssh config: " ++ err)),
         addCalls w [CallOpen configPath]))
  /\ (forall alias r w,
        fs e configPath = NoEntry \/ fs e configPath = Denied ->
        parseSSHConf e alias r w = ((r, None), addCalls w [CallOpen configPath]))
  /\ (forall alias r w conf,
        decodedConfig e = Some (inl conf) ->
        (forall key, configured e conf alias key = "") ->
        exists r' w',
          parseSSHConf e alias r w = ((r', None), w')
          /\ hostName r' = "" /\ user r' = "" /\ port r' = 0
          /\ identityFile r' = "").
Proof.
  repeat split.
  - intros t w err Hd.
    pose proof (parseSSHConf_cases (Host t) runConfig0 w) as Hc.
    rewrite Hd in Hc.
    now rewrite (makeRunConfig_parse_error _ _ _ _ _ Hc).
  - intros alias r w Hfs.
    pose proof (parseSSHConf_cases alias r w) as Hc.
    unfold decodedConfig in Hc. cbv zeta in Hc.
    destruct Hfs as [Hfs|Hfs]; rewrite Hfs in Hc; exact Hc.
  - intros alias r w conf Hd Hget.
    pose proof (parseSSHConf_cases alias r w) as Hc. rewrite Hd in Hc.
    destruct Hc as (r' & Hp & Hi & Hu & Hpo & Hh).
    rewrite Hget in *. exists r'. eexists. split; [exact Hp |].
    repeat split; assumption.
Qed.

(** C6: when the known-hosts callback cannot be constructed, no run of
    [makeClientConfig] and no resolution succeeds; the failure of the
    construction is returned as it is by [makeClientConfig] whenever a key
    was loaded; and a resolution that succeeds carries the callback that
    [knownhosts.New] returned. *)
Theorem C6_known_hosts_failure_is_fatal :
  (forall err,
      knownhosts_New e knownHostsPath = inr err ->
      (forall (user identityFile : string) w,
          exists err' w', makeClientConfig e user identityFile w = (inr err', w'))
      /\ (forall (user identityFile : string) w,
            loaded e (identityFile :: defaultKeys) <> [] ->
            exists w', makeClientConfig e user identityFile w = (inr err, w'))
      /\ (forall t w, exists err' w', makeRunConfig e t w = ((t, Some err'), w')))
  /\ (forall t w t' w',
        makeRunConfig e t w = ((t', None), w') ->
        exists r cc cb,
          rc t' = Some r /\ clientConfig r = Some cc
          /\ knownhosts_New e knownHostsPath = inl cb
          /\ ssh_HostKeyCallback cc = cb).
Proof.
  split.
  - intros err Hk.
    assert (Hm : forall (user identityFile : string) w,
               exists err' w',
                 makeClientConfig e user identityFile w = (inr err', w')).
    { intros user identityFile w.
      destruct (makeClientConfig_spec user identityFile w)
        as (w1 & lines & _ & _ & _ & _ & Hm).
      rewrite Hm, Hk. destruct (loaded e _); eexists; eexists; reflexivity. }
    split; [exact Hm | split].
    + intros user identityFile w Hne.
      destruct (makeClientConfig_spec user identityFile w)
        as (w1 & lines & _ & _ & _ & _ & Hm').
      rewrite Hm', Hk. destruct (loaded e _); [contradiction |].
      eexists. reflexivity.
    + intros t w.
      destruct (parseSSHConf e (Host t) runConfig0 w) as [[entry perr] w1] eqn:Hp.
      destruct perr as [perr|].
      * rewrite (makeRunConfig_parse_error _ _ _ _ _ Hp).
        eexists. eexists. reflexivity.
      * rewrite (makeRunConfig_parsed _ _ _ _ Hp). cbv zeta.
        destruct (validate _); [eexists; eexists; reflexivity |].
        destruct (Hm (user (overrideAndDefault t entry))
                    (identityFile (overrideAndDefault t entry)) w1)
          as (err' & w' & Hm').
        rewrite Hm'. eexists. eexists. reflexivity.
  - intros t w t' w' Hrun.
    destruct (parseSSHConf e (Host t) runConfig0 w) as [[entry perr] w1] eqn:Hp.
    destruct perr as [perr|].
    + rewrite (makeRunConfig_parse_error _ _ _ _ _ Hp) in Hrun. discriminate.
    + rewrite (makeRunConfig_parsed _ _ _ _ Hp) in Hrun. cbv zeta in Hrun.
      destruct (validate _); [discriminate |].
      destruct (makeClientConfig_spec (user (overrideAndDefault t entry))
                  (identityFile (overrideAndDefault t entry)) w1)
        as (w2 & lines & _ & _ & _ & _ & Hm).
      rewrite Hm in Hrun.
      destruct (loaded e _); [discriminate |].
      destruct (knownhosts_New e knownHostsPath) as [cb|err];
        [| discriminate].
      injection Hrun as <- _.
      eexists. eexists. exists cb. repeat split.
Qed.

(** C7: the normalisation of the local address puts [localhost:] before a
    spec without a colon, so that [8080] becomes [localhost:8080], leaves a
    spec with a colon such as [0.0.0.0:8080] as it is, and is idempotent on
    every string; it is what a successful resolution stores as the local
    address. *)
Theorem C7_local_address_normalization :
  qualifyLocal "8080" = "localhost:8080"
  /\ qualifyLocal "0.0.0.0:8080" = "0.0.0.0:8080"
  /\ (forall a, strings.Contains a ":" = false ->
               qualifyLocal a = "localhost:" ++ a)
  /\ (forall a, strings.Contains a ":" = true -> qualifyLocal a = a)
  /\ (forall a, qualifyLocal (qualifyLocal a) = qualifyLocal a)
  /\ (forall t w t' w',
        makeRunConfig e t w = ((t', None), w') ->
        exists r, rc t' = Some r
                  /\ localAddress r = qualifyLocal (LocalAddress t)).
Proof.
  repeat split.
  - intros a H. unfold qualifyLocal. now rewrite H.
  - intros a H. unfold qualifyLocal. now rewrite H.
  - intros a. unfold qualifyLocal.
    destruct (strings.Contains a ":") eqn:E; cbn [negb].
    + now rewrite E.
    + now rewrite Contains_localhost.
  - intros t w t' w' Hrun.
    destruct (parseSSHConf e (Host t) runConfig0 w) as [[entry perr] w1] eqn:Hp.
    destruct perr as [perr|].
    + rewrite (makeRunConfig_parse_error _ _ _ _ _ Hp) in Hrun. discriminate.
    + rewrite (makeRunConfig_parsed _ _ _ _ Hp) in Hrun. cbv zeta in Hrun.
      destruct (validate _); [discriminate |].
      destruct (makeClientConfig e _ _ w1) as [[cc|err] w2]; [| discriminate].
      injection Hrun as <- _. eexists. split; reflexivity.
Qed.

Lemma scenario_outcomes (candidates : list string) (m : string) (err : error)
    (signer : Signer) :
  oneMalformedThenOneValid e candidates m err signer ->
  loaded e candidates = [signer] /\ warned e candidates = [(m, err)].
Proof.
  intros (pre & mid & post & v & -> & Hm & Hv & Hsk).
  apply Forall_app in Hsk. destruct Hsk as [Hpre Hsk].
  apply Forall_app in Hsk. destruct Hsk as [Hmid Hpost].
  rewrite loaded_app, loaded_cons, loaded_app, loaded_cons.
  rewrite warned_app, warned_cons, warned_app, warned_cons.
  rewrite !skipped_loaded, !skipped_warned by assumption.
  rewrite Hm, Hv. split; reflexivity.
Qed.

(** C8 (as amended): the scan keeps, in order, the signers of the candidates
    that read and parse, writes to the sink one warning line naming each
    candidate that reads and does not parse, in order, and nothing for a
    candidate that does not read.  When one malformed key file comes before
    one valid key file and no other candidate reads, the signer set is
    exactly the signer of the valid key and exactly one warning, naming the
    malformed candidate, is written; [makeClientConfig] and the resolution
    then succeed provided the known-hosts callback can be constructed. *)
Theorem C8_malformed_key_then_valid_key :
  (forall (candidates : list string) (signers : list Signer) w,
      exists w',
        scanKeys e candidates signers w
        = ((signers ++ loaded e candidates)%list, w')
        /\ Forall2 (isParseWarning e) (warned e candidates) (newWrites w w')
        /\ newCalls w w'
           = map (fun i => CallReadFile (fillHome e i)) candidates)
  /\ (forall (user identityFile : string) w m err signer,
        oneMalformedThenOneValid e (identityFile :: defaultKeys) m err signer ->
        exists w1 line,
          scanKeys e (identityFile :: defaultKeys) [] w = ([signer], w1)
          /\ newWrites w w1 = [line]
          /\ isParseWarning e (m, err) line
          /\ forall cb,
               knownhosts_New e knownHostsPath = inl cb ->
               makeClientConfig e user identityFile w
               = (inl {| ssh_User := user;
                         ssh_Auth := [PublicKeys [signer]];
                         ssh_HostKeyCallback := cb;
                         ssh_Timeout := sshConnTimeout |},
                  addCalls w1 [CallKnownHosts knownHostsPath]))
  /\ (forall t w entry w1 m err signer cb,
        parseSSHConf e (Host t) runConfig0 w = ((entry, None), w1) ->
        validate (overrideAndDefault t entry) = None ->
        oneMalformedThenOneValid e
          (identityFile (overrideAndDefault t entry) :: defaultKeys)
          m err signer ->
        knownhosts_New e knownHostsPath = inl cb ->
        exists t' w' r cc line,
          makeRunConfig e t w = ((t', None), w')
          /\ rc t' = Some r /\ clientConfig r = Some cc
          /\ ssh_Auth cc = [PublicKeys [signer]]
          /\ newWrites w w' = [line]
          /\ isParseWarning e (m, err) line).
Proof.
  assert (Hscan : forall (user identityFile : string) w m err signer,
    oneMalformedThenOneValid e (identityFile :: defaultKeys) m err signer ->
    exists w1 line,
      scanKeys e (identityFile :: defaultKeys) [] w = ([signer], w1)
      /\ log.written (logState w1) = (log.written (logState w) ++ [line])%list
      /\ isParseWarning e (m, err) line
      /\ forall cb,
           knownhosts_New e knownHostsPath = inl cb ->
           makeClientConfig e user identityFile w
           = (inl {| ssh_User := user;
                     ssh_Auth := [PublicKeys [signer]];
                     ssh_HostKeyCallback := cb;
                     ssh_Timeout := sshConnTimeout |},
              addCalls w1 [CallKnownHosts knownHostsPath])).
  { intros user identityFile w m err signer Hsc.
    destruct (scenario_outcomes _ _ _ _ Hsc) as [Hl Hwn].
    destruct (makeClientConfig_spec user identityFile w)
      as (w1 & lines & Hs & _ & Hw & Hf & Hm).
    rewrite Hl in Hs, Hm. rewrite Hwn in Hf.
    inversion Hf as [|x line l ls Hline Hrest]; subst.
    inversion Hrest; subst.
    exists w1, line. repeat split; try assumption.
    intros cb Hk. rewrite Hm, Hk. reflexivity. }
  repeat split.
  - intros candidates signers w.
    destruct (scanKeys_spec candidates signers w)
      as (w' & lines & Hs & Hc & Hw & Hf).
    exists w'. rewrite (newWrites_app _ _ _ Hw), (newCalls_app _ _ _ Hc).
    repeat split; assumption.
  - intros user identityFile w m err signer Hsc.
    destruct (Hscan user identityFile w m err signer Hsc)
      as (w1 & line & Hs & Hw & Hline & Hm).
    exists w1, line. rewrite (newWrites_app _ _ _ Hw).
    repeat split; assumption.
  - intros t w entry w1 m err signer cb Hp Hv Hsc Hk.
    destruct (Hscan (user (overrideAndDefault t entry)) _ w1 m err signer Hsc)
      as (w2 & line & _ & Hw & Hline & Hm).
    destruct (parseSSHConf_quiet _ _ _ _ _ Hp) as [Hlog _].
    rewrite (makeRunConfig_parsed _ _ _ _ Hp). cbv zeta.
    rewrite Hv, (Hm cb Hk).
    do 5 eexists. split; [reflexivity |].
    repeat split; [| exact Hline].
    apply newWrites_app. cbn [addCalls logState]. now rewrite Hw, Hlog.
Qed.

(** C9 (as amended): a resolution that succeeds never stores a zero port;
    the stored port is positive whenever neither the port set on the
    declaration nor the port the configuration file supplies is negative. *)
Theorem C9_resolved_port_is_nonzero t w t' w' :
  makeRunConfig e t w = ((t', None), w') ->
  exists r,
    rc t' = Some r
    /\ port r <> 0
    /\ (0 <= Port t ->
        (forall p, portFromConfig e (Host t) = Some p -> 0 <= p) ->
        0 < port r).
Proof.
  intros Hrun.
  destruct (parseSSHConf e (Host t) runConfig0 w) as [[entry perr] w1] eqn:Hp.
  destruct perr as [perr|].
  { rewrite (makeRunConfig_parse_error _ _ _ _ _ Hp) in Hrun. discriminate. }
  rewrite (makeRunConfig_parsed _ _ _ _ Hp) in Hrun. cbv zeta in Hrun.
  destruct (validate (overrideAndDefault t entry)) eqn:Hv; [discriminate |].
  destruct (makeClientConfig e _ _ w1) as [[cc|err] w2]; [| discriminate].
  injection Hrun as <- _.
  apply validate_None in Hv. destruct Hv as (_ & _ & Hport).
  eexists. split; [reflexivity |]. cbn [port set_localAddress
    set_remoteAddress set_clientConfig].
  split; [exact Hport |].
  intros Hdecl Hconf.
  assert (Hentry : port entry <> 0 -> 0 <= port entry).
  { intros Hnz. apply Hconf.
    pose proof (parseSSHConf_cases (Host t) runConfig0 w) as Hc.
    unfold portFromConfig.
    destruct (decodedConfig e) as [[conf|derr]|].
    - destruct Hc as (r' & Hp' & _ & _ & Hpo & _).
      rewrite Hp in Hp'. injection Hp' as -> _.
      rewrite <- Hpo. unfold suppliedInt.
      destruct (Z.eqb_spec (port r') 0); [contradiction | reflexivity].
    - rewrite Hp in Hc. discriminate.
    - rewrite Hp in Hc. injection Hc as -> _. now destruct Hnz. }
  rewrite overrideAndDefault_port in *.
  destruct (Z.eqb_spec (Port t) 0); [| lia].
  destruct (Z.eqb_spec (port entry) 0); [reflexivity |].
  specialize (Hentry n). lia.
Qed.

(** C10 (as amended): a Port text that [strconv.Atoi] rejects as a syntax
    error is taken as unspecified: the parsed port is zero, nothing is
    reported (no error is returned and the sink is not written to), and
    without a port on the declaration the port resolves to 22, which is the
    port [makeRunConfig] validates and stores.  Every text that is empty, a
    bare sign, or has a byte that is not a digit among the first 20 after
    its optional sign is such a text, and none of them is a valid decimal
    integer. *)
Theorem C10_malformed_port_text_is_unspecified :
  (forall text,
      malformedEarly text = true ->
      validDecimal text = false
      /\ strconv.Atoi text = (0, Some strconv.ErrSyntax))
  /\ (forall alias r w conf,
        decodedConfig e = Some (inl conf) ->
        snd (strconv.Atoi (configured e conf alias "Port"))
        = Some strconv.ErrSyntax ->
        exists entry w',
          parseSSHConf e alias r w = ((entry, None), w')
          /\ port entry = 0
          /\ logState w' = logState w
          /\ portFromConfig e alias = None
          /\ forall t, Port t = 0 -> port (overrideAndDefault t entry) = 22)
  /\ (forall t w conf,
        decodedConfig e = Some (inl conf) ->
        snd (strconv.Atoi (configured e conf (Host t) "Port"))
        = Some strconv.ErrSyntax ->
        Port t = 0 ->
        exists entry w1,
          parseSSHConf e (Host t) runConfig0 w = ((entry, None), w1)
          /\ logState w1 = logState w
          /\ port (overrideAndDefault t entry) = 22
          /\ makeRunConfig e t w
             = match validate (overrideAndDefault t entry) with
               | Some err => ((t, Some err), w1)
               | None =>
                   let '(made, w2) :=
                     makeClientConfig e (user (overrideAndDefault t entry))
                       (identityFile (overrideAndDefault t entry)) w1 in
                   match made with
                   | inr err =>
                       ((t, Some ("could not make client config: " ++ err)),
                        w2)
                   | inl cc =>
                       ((set_rc t
                           (set_localAddress
                              (set_remoteAddress
                                 (set_clientConfig
                                    (overrideAndDefault t entry) (Some cc))
                                 (RemoteAddress t))
                              (qualifyLocal (LocalAddress t))),
                         None), w2)
                   end
               end
          /\ forall t' w',
               makeRunConfig e t w = ((t', None), w') ->
               exists r', rc t' = Some r' /\ port r' = 22).
Proof.
  assert (Hparse : forall alias r w conf,
    decodedConfig e = Some (inl conf) ->
    snd (strconv.Atoi (configured e conf alias "Port"))
    = Some strconv.ErrSyntax ->
    exists entry w',
      parseSSHConf e alias r w = ((entry, None), w')
      /\ port entry = 0
      /\ logState w' = logState w
      /\ portFromConfig e alias = None
      /\ forall t, Port t = 0 -> port (overrideAndDefault t entry) = 22).
  { intros alias r w conf Hd Hsyn.
    pose proof (parseSSHConf_cases alias r w) as Hc. rewrite Hd in Hc.
    destruct Hc as (r' & Hp & _ & _ & Hpo & _).
    rewrite (Atoi_syntax_zero _ Hsyn) in Hpo.
    exists r'. eexists. split; [exact Hp |].
    split; [exact Hpo |]. split; [reflexivity |]. split.
    + unfold portFromConfig. rewrite Hd, (Atoi_syntax_zero _ Hsyn).
      reflexivity.
    + intros t Ht. rewrite overrideAndDefault_port, Ht, Hpo. reflexivity. }
  split; [| split; [exact Hparse |]].
  - intros text H. split;
      [now apply malformedEarly_not_valid | now apply Atoi_malformedEarly].
  - intros t w conf Hd Hsyn Ht.
    destruct (Hparse (Host t) runConfig0 w conf Hd Hsyn)
      as (entry & w1 & Hp & _ & Hlog & _ & Hdef).
    exists entry, w1. split; [exact Hp |]. split; [exact Hlog |].
    split; [exact (Hdef t Ht) |].
    split; [exact (makeRunConfig_parsed _ _ _ _ Hp) |].
    intros t' w' Hrun. rewrite (makeRunConfig_parsed _ _ _ _ Hp) in Hrun.
    cbv zeta in Hrun.
    destruct (validate (overrideAndDefault t entry)); [discriminate |].
    destruct (makeClientConfig e _ _ w1) as [[cc|err] w2]; [| discriminate].
    injection Hrun as <- _. eexists. split; [reflexivity |].
    cbn. exact (Hdef t Ht).
Qed.

End Properties.

(** ** The claims on concrete inputs *)

Import Example.

(** C1 on three inputs, each resolved to a stored run configuration: the
    port comes from the declaration, from the configuration file, and from
    the default. *)
Lemma C1_precedence_of_sources_witness :
  let e := env home myhostConf in
  (forall err, decodedConfig e <> Some (inr err))
  /\ (exists t' w' r',
        makeRunConfig e (tunnel "myhost" "" 2200 "" "8080") world0
        = ((t', None), w')
        /\ rc t' = Some r' /\ Some (port r') = Some 2200
        /\ suppliedString (user r') = Some "alice")
  /\ (exists t' w' r',
        makeRunConfig e (tunnel "myhost" "" 0 "" "8080") world0
        = ((t', None), w')
        /\ rc t' = Some r' /\ Some (port r') = Some 2222
        /\ suppliedString (user r') = Some "alice")
  /\ (exists t' w' r',
        makeRunConfig e (tunnel "other" "bob" 0 "" "8080") world0
        = ((t', None), w')
        /\ rc t' = Some r' /\ Some (port r') = Some 22
        /\ suppliedString (user r') = Some "bob").
Proof.
  intros e.
  assert (Hok : forall err, decodedConfig e <> Some (inr err))
    by (intros err H; vm_compute in H; discriminate).
  assert (Hrun : forall t,
            snd (fst (makeRunConfig e t world0)) = None ->
            makeRunConfig e t world0
            = ((fst (fst (makeRunConfig e t world0)), None),
               snd (makeRunConfig e t world0))).
  { intros t H. destruct (makeRunConfig e t world0) as [[t' res] w'].
    cbn in *. now subst res. }
  split; [exact Hok |]. repeat split.
  - destruct (C1_precedence_of_sources e (tunnel "myhost" "" 2200 "" "8080")
                world0 Hok) as (entry & w1 & _ & Hu & Hport & _ & _ & Hst).
    pose proof (Hrun (tunnel "myhost" "" 2200 "" "8080") eq_refl) as Hr.
    destruct (Hst _ _ Hr) as (r' & Hrc & Hu' & Hp' & _).
    eexists. eexists. exists r'. split; [exact Hr |].
    split; [exact Hrc |]. rewrite Hu', Hp'. split; [exact Hport | exact Hu].
  - destruct (C1_precedence_of_sources e (tunnel "myhost" "" 0 "" "8080")
                world0 Hok) as (entry & w1 & _ & Hu & Hport & _ & _ & Hst).
    pose proof (Hrun (tunnel "myhost" "" 0 "" "8080") eq_refl) as Hr.
    destruct (Hst _ _ Hr) as (r' & Hrc & Hu' & Hp' & _).
    eexists. eexists. exists r'. split; [exact Hr |].
    split; [exact Hrc |]. rewrite Hu', Hp'. split; [exact Hport | exact Hu].
  - destruct (C1_precedence_of_sources e (tunnel "other" "bob" 0 "" "8080")
                world0 Hok) as (entry & w1 & _ & Hu & Hport & _ & _ & Hst).
    pose proof (Hrun (tunnel "other" "bob" 0 "" "8080") eq_refl) as Hr.
    destruct (Hst _ _ Hr) as (r' & Hrc & Hu' & Hp' & _).
    eexists. eexists. exists r'. split; [exact Hr |].
    split; [exact Hrc |]. rewrite Hu', Hp'. split; [exact Hport | exact Hu].
Defined.

(** C2 as stated fails on a declaration whose alias is empty: no entry is
    found, nothing is set, and the error names the host, not the user. *)
Lemma C2_counterexample_empty_alias :
  let e := env [] [] in
  let t := tunnel "" "" 0 "" "8080" in
  noEntryFor e (Host t)
  /\ User t = "" /\ Port t = 0 /\ IdentityFile t = ""
  /\ fst (makeRunConfig e t world0) = (t, Some "no host specified.")
  /\ fst (makeRunConfig e t world0) <> (t, Some "no user specified.").
Proof.
  intros e t. repeat split. vm_compute. discriminate.
Qed.

Lemma C2_unmatched_alias_names_user_witness :
  let e := env home myhostConf in
  let t := tunnel "other" "" 0 "" "8080" in
  noEntryFor e (Host t)
  /\ exists w1, makeRunConfig e t world0 = ((t, Some "no user specified."), w1).
Proof.
  intros e t.
  assert (Hno : noEntryFor e (Host t)).
  { exists myhostConf. split; [reflexivity | intros key; reflexivity]. }
  split; [exact Hno |].
  destruct (C2_unmatched_alias_names_user e t world0 Hno)
    as (entry & w1 & _ & _ & _ & _ & Hrun).
  - vm_compute. discriminate.
  - reflexivity.
  - reflexivity.
  - reflexivity.
  - exists w1. exact Hrun.
Defined.

Lemma C3_client_config_only_after_validation_witness :
  let e := env home myhostConf in
  let t := tunnel "myhost" "" 0 "" "8080" in
  let w' := snd (makeRunConfig e t world0) in
  ranMakeClientConfig world0 w'
  /\ exists entry w1,
       parseSSHConf e (Host t) runConfig0 world0 = ((entry, None), w1)
       /\ hostName (overrideAndDefault t entry) <> ""
       /\ user (overrideAndDefault t entry) <> ""
       /\ port (overrideAndDefault t entry) <> 0.
Proof.
  intros e t w'.
  assert (Hran : ranMakeClientConfig world0 w').
  { exists "". vm_compute. right. right. left. reflexivity. }
  split; [exact Hran |].
  apply (proj2 (C3_client_config_only_after_validation e t world0
                  (fst (makeRunConfig e t world0)) w'
                  (surjective_pairing _))).
  exact Hran.
Defined.

Lemma C4_no_readable_key_file_witness :
  let e := env homeWithoutKeys myhostConf in
  noneReadable e ("" :: defaultKeys)
  /\ exists w',
       makeClientConfig e "alice" "" world0 = (inr "no key files found.", w')
       /\ logState w' = logState world0.
Proof.
  intros e.
  assert (Hnone : noneReadable e ("" :: defaultKeys)).
  { intros i [<-|[<-|[<-|[<-|[]]]]] key; vm_compute; discriminate. }
  split; [exact Hnone |].
  destruct (proj1 (C4_no_readable_key_file e) "alice" "" world0 Hnone)
    as (w' & _ & Hm & Hlog).
  exists w'. split; [exact Hm | exact Hlog].
Defined.

(** C4 as stated fails on a declaration for which no user is resolved: no
    candidate key file can be read, yet the resolution fails at validation
    with the error that names the user, before any key file is read. *)
Lemma C4_counterexample_no_user :
  let e := env homeWithoutKeys myhostConf in
  let t := tunnel "other" "" 0 "" "8080" in
  noneReadable e (IdentityFile t :: defaultKeys)
  /\ fst (makeRunConfig e t world0) = (t, Some "no user specified.")
  /\ snd (fst (makeRunConfig e t world0)) <> Some "no key files found."
  /\ snd (fst (makeRunConfig e t world0))
     <> Some "could not make client config: no key files found."
  /\ newCalls world0 (snd (makeRunConfig e t world0))
     = [CallOpen "/home/u/.ssh/config"; CallClose "/home/u/.ssh/config"].
Proof.
  intros e t. split; [| split; [| split; [| split]]].
  - intros i [<-|[<-|[<-|[<-|[]]]]] key; vm_compute; discriminate.
  - reflexivity.
  - vm_compute. discriminate.
  - vm_compute. discriminate.
  - reflexivity.
Qed.

(** C5 as stated fails on a configuration file that may not be read: the
    file is not opened, no error is returned, and the resolution succeeds. *)
Lemma C5_counterexample_unreadable_config :
  let e := env homeDeniedConfig [] in
  let t := tunnel "example.com" "bob" 0 "" "8080" in
  fs e (sshConfigPath e "config") = Denied
  /\ snd (fst (parseSSHConf e (Host t) runConfig0 world0)) = None
  /\ snd (fst (makeRunConfig e t world0)) = None.
Proof. intros e t. repeat split. Qed.

Lemma C5_configuration_file_errors_witness :
  let e := env homeCorruptConfig [] in
  let t := tunnel "example.com" "bob" 0 "" "8080" in
  decodedConfig e = Some (inr "ssh_config: unexpected token")
  /\ fst (makeRunConfig e t world0)
     = (t, Some "could not parse SSH config: could not decode ssh config: ssh_config: unexpected token").
Proof.
  intros e t.
  assert (Hd : decodedConfig e = Some (inr "ssh_config: unexpected token"))
    by reflexivity.
  split; [exact Hd |].
  rewrite (proj1 (C5_configuration_file_errors e) t world0 _ Hd).
  reflexivity.
Defined.

Lemma C6_known_hosts_failure_is_fatal_witness :
  let e := env homeWithoutKnownHosts myhostConf in
  let t := tunnel "myhost" "" 0 "" "8080" in
  knownhosts_New e (sshConfigPath e "known_hosts")
  = inr "open /home/u/.ssh/known_hosts: no such file or directory"
  /\ exists err' w', makeRunConfig e t world0 = ((t, Some err'), w').
Proof.
  intros e t.
  assert (Hk : knownhosts_New e (sshConfigPath e "known_hosts")
               = inr "open /home/u/.ssh/known_hosts: no such file or directory")
    by reflexivity.
  split; [exact Hk |].
  exact (proj2 (proj2 (proj1 (C6_known_hosts_failure_is_fatal e) _ Hk))
           t world0).
Defined.

Lemma C7_local_address_normalization_witness :
  let e := env home myhostConf in
  let t := tunnel "myhost" "" 0 "" "8080" in
  let out := makeRunConfig e t world0 in
  snd (fst out) = None
  /\ exists r, rc (fst (fst out)) = Some r
               /\ localAddress r = "localhost:8080".
Proof.
  intros e t out. split; [reflexivity |].
  destruct (proj2 (proj2 (proj2 (proj2 (proj2
              (C7_local_address_normalization e)))))
              t world0 (fst (fst out)) (snd out)) as (r & Hr & Hl).
  - reflexivity.
  - exists r. split; [exact Hr | exact Hl].
Defined.

(** C8 as stated fails when the known-hosts store is missing: a malformed
    key comes before a valid one, and the resolution does not succeed. *)
Lemma C8_counterexample_without_known_hosts :
  let e := env homeWithoutKnownHosts myhostConf in
  let t := tunnel "myhost" "" 0 "" "8080" in
  oneMalformedThenOneValid e ("" :: defaultKeys)
    "~/.ssh/id_rsa" "ssh: no key found" "KEY ed25519"
  /\ fst (makeClientConfig e "alice" "" world0)
     = inr "open /home/u/.ssh/known_hosts: no such file or directory"
  /\ fst (makeRunConfig e t world0)
     = (t, Some "could not make client config: open /home/u/.ssh/known_hosts: no such file or directory").
Proof.
  intros e t. repeat split.
  exists [""], ["~/.ssh/id_ecdsa"], [], "~/.ssh/id_ed25519".
  repeat split. repeat constructor.
Qed.

Lemma C8_malformed_key_then_valid_key_witness :
  let e := env home myhostConf in
  oneMalformedThenOneValid e ("" :: defaultKeys)
    "~/.ssh/id_rsa" "ssh: no key found" "KEY ed25519"
  /\ exists w1 line,
       scanKeys e ("" :: defaultKeys) [] world0 = (["KEY ed25519"], w1)
       /\ newWrites world0 w1 = [line]
       /\ isParseWarning e ("~/.ssh/id_rsa", "ssh: no key found") line
       /\ exists cc w', makeClientConfig e "alice" "" world0 = (inl cc, w').
Proof.
  intros e.
  assert (Hsc : oneMalformedThenOneValid e ("" :: defaultKeys)
                  "~/.ssh/id_rsa" "ssh: no key found" "KEY ed25519").
  { exists [""], ["~/.ssh/id_ecdsa"], [], "~/.ssh/id_ed25519".
    repeat split. repeat constructor. }
  split; [exact Hsc |].
  destruct (proj1 (proj2 (C8_malformed_key_then_valid_key e))
              "alice" "" world0 _ _ _ Hsc) as (w1 & line & Hs & Hw & Hl & Hm).
  exists w1, line. repeat split; try assumption.
  eexists. eexists. apply Hm. reflexivity.
Defined.

(** C9 as stated fails on a declaration with a negative port: the
    resolution succeeds and stores the negative port. *)
Lemma C9_counterexample_negative_port :
  let e := env home myhostConf in
  let t := tunnel "example.com" "bob" (-5) "" "8080" in
  let out := makeRunConfig e t world0 in
  snd (fst out) = None
  /\ exists r, rc (fst (fst out)) = Some r /\ port r = -5 /\ ~ 0 < port r.
Proof.
  intros e t out. split; [reflexivity |].
  eexists. split; [reflexivity |]. split; [reflexivity |]. cbn. lia.
Qed.

Lemma C9_resolved_port_is_nonzero_witness :
  let e := env home myhostConf in
  let t := tunnel "myhost" "" 0 "" "8080" in
  let out := makeRunConfig e t world0 in
  snd (fst out) = None
  /\ exists r, rc (fst (fst out)) = Some r /\ port r <> 0 /\ 0 < port r.
Proof.
  intros e t out. split; [reflexivity |].
  destruct (C9_resolved_port_is_nonzero e t world0 (fst (fst out)) (snd out))
    as (r & Hr & Hnz & Hpos).
  - reflexivity.
  - exists r. split; [exact Hr |]. split; [exact Hnz |].
    apply Hpos.
    + cbn. lia.
    + intros p Hp. vm_compute in Hp. injection Hp as <-. lia.
Defined.

(** C10 as stated fails on a Port text that is not a decimal integer and
    whose leading digits overflow: [Atoi] returns the largest [int] with a
    range error, which the code takes as the port.  A text of digits alone
    that overflows gives the same port. *)
Lemma C10_counterexample_overflowing_port_text :
  let e := env home longPortConf in
  let t := tunnel "long" "" 0 "" "8080" in
  let out := makeRunConfig e t world0 in
  configured e longPortConf "long" "Port" = "99999999999999999999x"
  /\ validDecimal "99999999999999999999x" = false
  /\ strconv.Atoi "99999999999999999999x"
     = (9223372036854775807, Some strconv.ErrRange)
  /\ port (fst (fst (parseSSHConf e "long" runConfig0 world0)))
     = 9223372036854775807
  /\ snd (fst out) = None
  /\ (exists r, rc (fst (fst out)) = Some r /\ port r = 9223372036854775807)
  /\ strconv.Atoi "99999999999999999999"
     = (9223372036854775807, Some strconv.ErrRange).
Proof.
  intros e t out. repeat split.
  eexists. split; reflexivity.
Qed.

Lemma C10_malformed_port_text_is_unspecified_witness :
  let e := env home wordPortConf in
  let t := tunnel "word" "" 0 "" "8080" in
  malformedEarly "ssh" = true
  /\ decodedConfig e = Some (inl wordPortConf)
  /\ (exists entry w',
        parseSSHConf e "word" runConfig0 world0 = ((entry, None), w')
        /\ port entry = 0
        /\ port (overrideAndDefault t entry) = 22)
  /\ (exists t' w' r',
        makeRunConfig e t world0 = ((t', None), w')
        /\ rc t' = Some r' /\ port r' = 22).
Proof.
  intros e t. split; [reflexivity |]. split; [reflexivity |].
  assert (Hsyn : snd (strconv.Atoi (configured e wordPortConf "word" "Port"))
                 = Some strconv.ErrSyntax).
  { exact (f_equal snd
             (proj2 (proj1 (C10_malformed_port_text_is_unspecified e)
                       "ssh" eq_refl))). }
  split.
  - destruct (proj1 (proj2 (C10_malformed_port_text_is_unspecified e))
                "word" runConfig0 world0 wordPortConf eq_refl Hsyn)
      as (entry & w' & Hp & Hz & _ & _ & Hdef).
    exists entry, w'. split; [exact Hp |]. split; [exact Hz |].
    apply Hdef. reflexivity.
  - destruct (proj2 (proj2 (C10_malformed_port_text_is_unspecified e))
                t world0 wordPortConf eq_refl Hsyn eq_refl)
      as (entry & w1 & _ & _ & _ & _ & Hst).
    assert (Hrun : makeRunConfig e t world0
                   = ((fst (fst (makeRunConfig e t world0)), None),
                      snd (makeRunConfig e t world0))) by reflexivity.
    destruct (Hst _ _ Hrun) as (r' & Hrc & Hport).
    eexists. eexists. exists r'. split; [exact Hrun |].
    split; [exact Hrc | exact Hport].
Defined.

(** * Further properties of the code *)

(** ** Package [log]: rotation *)

Lemma tryRotate_cases (w : log.logWriter) :
  match log.inner w with
  | log.OtherWriter => log.tryRotate w = w
  | log.FileWriter f =>
      if log.statFails f || (log.size f <? log.maxFileSize) || log.truncateFails f
      then log.tryRotate w = w
      else log.tryRotate w
           = {| log.inner :=
                  log.FileWriter
                    {| log.size := 0; log.offset := 0;
                       log.statFails := log.statFails f;
                       log.truncateFails := log.truncateFails f |} |}
  end.
Proof.
  unfold log.tryRotate, log.Stat, log.Truncate0, log.Seek0.
  destruct (log.inner w) as [f|]; [| reflexivity].
  destruct (log.statFails f); [reflexivity |].
  destruct (log.size f <? log.maxFileSize); [reflexivity |].
  destruct (log.truncateFails f); reflexivity.
Qed.

(** X1: [tryRotate] is idempotent, and it changes its writer only when that is
    a file of at least 128 KiB on which [Stat] and [Truncate] succeed; the
    file is then empty, with its handle at the start. *)
Theorem tryRotate_idempotent_and_sparing (w : log.logWriter) :
  log.tryRotate (log.tryRotate w) = log.tryRotate w
  /\ (log.tryRotate w <> w ->
      exists f,
        log.inner w = log.FileWriter f
        /\ log.statFails f = false /\ log.truncateFails f = false
        /\ 131072 <= log.size f
        /\ log.tryRotate w
           = {| log.inner :=
                  log.FileWriter
                    {| log.size := 0; log.offset := 0;
                       log.statFails := false; log.truncateFails := false |} |}).
Proof.
  pose proof (tryRotate_cases w) as Hw.
  destruct w as [[f|]]; cbn [log.inner] in Hw.
  - destruct (log.statFails f) eqn:Es; cbn [orb] in Hw;
      [rewrite Hw; split; [rewrite Hw; reflexivity | intros H; now destruct H] |].
    destruct (log.size f <? log.maxFileSize) eqn:Ez; cbn [orb] in Hw;
      [rewrite Hw; split; [rewrite Hw; reflexivity | intros H; now destruct H] |].
    destruct (log.truncateFails f) eqn:Et;
      [rewrite Hw; split; [rewrite Hw; reflexivity | intros H; now destruct H] |].
    rewrite Hw. split.
    + pose proof (tryRotate_cases
                    {| log.inner :=
                         log.FileWriter
                           {| log.size := 0; log.offset := 0;
                              log.statFails := false;
                              log.truncateFails := false |} |}) as H0.
      exact H0.
    + intros _. exists f. repeat split; try assumption.
      apply Z.ltb_ge in Ez. exact Ez.
  - rewrite Hw. split; [exact Hw | intros H; now destruct H].
Qed.

Lemma Write_appending (bytes : string) (st : log.State) (f : log.File) :
  log.inner (log.writer st) = log.FileWriter f ->
  log.appending f ->
  exists f',
    log.inner (log.writer (log.Write bytes st)) = log.FileWriter f'
    /\ log.appending f'
    /\ log.size f'
       = (if log.size f <? log.maxFileSize then log.size f else 0)
         + Z.of_nat (String.length bytes).
Proof.
  intros Hin (Hs & Ht & Hz & Ho).
  pose proof (tryRotate_cases (log.writer st)) as Hr. rewrite Hin in Hr.
  rewrite Hs, Ht, orb_false_r in Hr. cbn [orb] in Hr.
  unfold log.Write. cbv zeta.
  destruct (log.size f <? log.maxFileSize) eqn:Ez; rewrite Hr.
  - rewrite Hin. cbn [log.inner log.writer]. eexists. split; [reflexivity |].
    unfold log.appending, log.fileWrite. cbn. repeat split; try assumption; lia.
  - cbn [log.inner log.writer]. eexists. split; [reflexivity |].
    unfold log.appending, log.fileWrite. cbn. repeat split; lia.
Qed.

(** X2: The log file stays bounded: on a file that is written at its end and on
    which [Stat] and [Truncate] succeed, any sequence of writes of chunks of
    at most [L] bytes keeps the file below 128 KiB plus [L] bytes, and
    keeps the handle at the end. *)
Theorem log_file_stays_bounded (L : Z) (chunks : list string) :
  forall (st : log.State) (f : log.File),
    log.inner (log.writer st) = log.FileWriter f ->
    log.appending f ->
    log.size f < 131072 + L ->
    Forall (fun bytes => Z.of_nat (String.length bytes) <= L) chunks ->
    exists f',
      log.inner (log.writer (log.writeAll chunks st)) = log.FileWriter f'
      /\ log.appending f'
      /\ log.size f' < 131072 + L.
Proof.
  induction chunks as [|bytes rest IH]; intros st f Hin Hap Hsz Hall.
  - exists f. split; [exact Hin | split; [exact Hap | exact Hsz]].
  - inversion Hall as [|x l Hlen Hrest]; subst.
    destruct (Write_appending bytes st f Hin Hap) as (f1 & Hin1 & Hap1 & Hsz1).
    cbn [log.writeAll fold_left].
    apply (IH (log.Write bytes st) f1 Hin1 Hap1); [| exact Hrest].
    rewrite Hsz1. change log.maxFileSize with 131072.
    destruct (log.size f <? 131072) eqn:Ez; [apply Z.ltb_lt in Ez |]; lia.
Qed.

(** X3: A write on a file that has reached 128 KiB drops all that the file held:
    afterwards the file holds the chunk just written and nothing else. *)
Theorem Write_on_ripe_file_keeps_last_chunk_only (bytes : string)
    (st : log.State) (f : log.File) :
  log.inner (log.writer st) = log.FileWriter f ->
  log.statFails f = false -> log.truncateFails f = false ->
  131072 <= log.size f ->
  exists f',
    log.inner (log.writer (log.Write bytes st)) = log.FileWriter f'
    /\ log.size f' = Z.of_nat (String.length bytes)
    /\ log.offset f' = log.size f'
    /\ log.written (log.Write bytes st) = (log.written st ++ [bytes])%list.
Proof.
  intros Hin Hs Ht Hsz.
  pose proof (tryRotate_cases (log.writer st)) as Hr. rewrite Hin in Hr.
  rewrite Hs, Ht, orb_false_r in Hr. cbn [orb] in Hr.
  assert (Ez : (log.size f <? log.maxFileSize) = false)
    by (apply Z.ltb_ge; exact Hsz).
  rewrite Ez in Hr. unfold log.Write. cbv zeta. rewrite Hr.
  cbn [log.inner log.writer log.written]. eexists.
  split; [reflexivity |]. unfold log.fileWrite. cbn.
  repeat split; lia.
Qed.

Lemma Write_without_truncate (bytes : string) (st : log.State) (f : log.File) :
  log.inner (log.writer st) = log.FileWriter f ->
  log.truncateFails f = true ->
  log.tryRotate (log.writer st) = log.writer st
  /\ exists f',
       log.inner (log.writer (log.Write bytes st)) = log.FileWriter f'
       /\ log.size f <= log.size f'
       /\ log.truncateFails f' = true.
Proof.
  intros Hin Ht.
  pose proof (tryRotate_cases (log.writer st)) as Hr. rewrite Hin in Hr.
  rewrite Ht, orb_true_r in Hr. split; [exact Hr |].
  unfold log.Write. cbv zeta. rewrite Hr, Hin.
  cbn [log.inner]. eexists. split; [reflexivity |].
  unfold log.fileWrite. cbn. split; [lia | exact Ht].
Qed.

(** X4: When [Truncate] fails on the file, as on a terminal or a pipe, the
    log is never rotated, whatever its size: over any sequence of writes
    the inner writer stays that file and the file never shrinks. *)
Theorem Write_without_truncate_never_shrinks (chunks : list string) :
  forall (st : log.State) (f : log.File),
    log.inner (log.writer st) = log.FileWriter f ->
    log.truncateFails f = true ->
    log.tryRotate (log.writer st) = log.writer st
    /\ exists f',
         log.inner (log.writer (log.writeAll chunks st)) = log.FileWriter f'
         /\ log.size f <= log.size f'
         /\ log.truncateFails f' = true.
Proof.
  induction chunks as [|bytes rest IH]; intros st f Hin Ht.
  - destruct (Write_without_truncate "" st f Hin Ht) as [Hr _].
    split; [exact Hr |]. exists f. split; [exact Hin |]. split; [lia | exact Ht].
  - destruct (Write_without_truncate bytes st f Hin Ht)
      as (Hr & f1 & Hin1 & Hsz1 & Ht1).
    split; [exact Hr |].
    destruct (IH (log.Write bytes st) f1 Hin1 Ht1) as (_ & f' & Hin' & Hsz' & Ht').
    exists f'. cbn [log.writeAll fold_left].
    split; [exact Hin' |]. split; [lia | exact Ht'].
Qed.

(** ** Package [tunnel]: further properties *)

Section MoreProperties.

Context {Config Signer HostKeyCallback : Type}.
Variable e : Env Config Signer HostKeyCallback.

Implicit Types (t : Tunnel Signer HostKeyCallback).
Implicit Types (r : runConfig Signer HostKeyCallback).
Implicit Types (w : World).

Local Notation "'configPath'" := (sshConfigPath e "config").
Local Notation "'knownHostsPath'" := (sshConfigPath e "known_hosts").
Local Notation "'HOME'" := (Getenv (proc e) "HOME").

(** *** [fillHome] *)

(** X7: [fillHome] expands the path [~] to the home directory and a path
    [~/rest] to the join of the home directory and [rest]; every other path
    is returned as it is: the empty path, a path that does not start with a
    tilde, and a path [~name...] of another user's home. *)
Theorem fillHome_shapes :
  fillHome e "~" = HOME
  /\ (forall rest, fillHome e ("~/" ++ rest) = filepath_Join e [HOME; rest])
  /\ fillHome e "" = ""
  /\ (forall c rest, c <> "~"%char -> fillHome e (String c rest) = String c rest)
  /\ (forall c rest, c <> "/"%char ->
        fillHome e (String "~" (String c rest)) = String "~" (String c rest)).
Proof.
  unfold fillHome, strings.HasPrefix. repeat split.
  - intros rest. cbn. destruct rest; reflexivity.
  - intros c rest Hc.
    destruct (String.eqb_spec (String c rest) "~") as [E|E];
      [injection E as -> _; now destruct Hc |].
    change (String.prefix "~/" (String c rest))
      with (if ascii_dec "~" c then String.prefix "/" rest else false).
    destruct (ascii_dec "~" c) as [E'|E']; [now destruct Hc | reflexivity].
  - intros c rest Hc.
    destruct (String.eqb_spec (String "~" (String c rest)) "~") as [E|E];
      [discriminate |].
    change (String.prefix "~/" (String "~" (String c rest)))
      with (if ascii_dec "~" "~"
            then (if ascii_dec "/" c then String.prefix "" rest else false)
            else false).
    destruct (ascii_dec "~" "~") as [_|E']; [| now destruct E'].
    destruct (ascii_dec "/" c) as [E'|E']; [now destruct Hc | reflexivity].
Qed.

(** *** [parseSSHConf] *)

(** X8: [parseSSHConf] closes the configuration file exactly when the file
    decoded: a file that opens and does not decode is left open.  It never
    touches the addresses or the client configuration of the run
    configuration, and on a file that does not open or does not decode it
    leaves the whole run configuration as it was. *)
Theorem parseSSHConf_effects (alias : string) r w :
  newCalls w (snd (parseSSHConf e alias r w))
  = match decodedConfig e with
    | Some (inl _) => [CallOpen configPath; CallClose configPath]
    | _ => [CallOpen configPath]
    end
  /\ (let r' := fst (fst (parseSSHConf e alias r w)) in
      localAddress r' = localAddress r
      /\ remoteAddress r' = remoteAddress r
      /\ clientConfig r' = clientConfig r
      /\ match decodedConfig e with
         | Some (inl _) => True
         | _ => r' = r
         end).
Proof.
  pose proof (parseSSHConf_cases e alias r w) as Hc.
  assert (Hkeep : let r' := fst (fst (parseSSHConf e alias r w)) in
                  localAddress r' = localAddress r
                  /\ remoteAddress r' = remoteAddress r
                  /\ clientConfig r' = clientConfig r).
  { unfold parseSSHConf, bind, os_Open, Close, call, ret, ssh_config_Decode.
    cbn beta iota zeta.
    destruct (fs e configPath) as [| | |data]; cbn;
      try (repeat split; reflexivity).
    destruct (ssh_config_parse e data); repeat split; reflexivity. }
  destruct Hkeep as (Hl & Hr & Hcc). cbv zeta in *.
  destruct (decodedConfig e) as [[conf|err]|].
  - destruct Hc as (r' & Hp & _). rewrite Hp in *. cbn [fst snd] in *.
    rewrite newCalls_addCalls. repeat split; assumption.
  - rewrite Hc in *. cbn [fst snd] in *. rewrite newCalls_addCalls.
    repeat split; assumption.
  - rewrite Hc in *. cbn [fst snd] in *. rewrite newCalls_addCalls.
    repeat split; assumption.
Qed.

(** *** The host name *)

(** X9: The host name is the [HostName] the configuration file has for the
    alias when it has one, and the alias otherwise; no field of the
    declaration overrides a configured host name.  The run configuration
    with that host name is the one [makeRunConfig] validates and the one it
    stores when the resolution succeeds. *)
Theorem host_name_from_config_else_alias t w :
  (forall err, decodedConfig e <> Some (inr err)) ->
  exists entry w1,
    parseSSHConf e (Host t) runConfig0 w = ((entry, None), w1)
    /\ suppliedString (hostName (overrideAndDefault t entry))
       = firstSupplied [fromConfig e (Host t) "HostName";
                        suppliedString (Host t)]
    /\ makeRunConfig e t w
       = match validate (overrideAndDefault t entry) with
         | Some err => ((t, Some err), w1)
         | None =>
             let '(made, w2) :=
               makeClientConfig e (user (overrideAndDefault t entry))
                 (identityFile (overrideAndDefault t entry)) w1 in
             match made with
             | inr err =>
                 ((t, Some ("could not make client config: " ++ err)), w2)
             | inl cc =>
                 ((set_rc t
                     (set_localAddress
                        (set_remoteAddress
                           (set_clientConfig (overrideAndDefault t entry)
                              (Some cc))
                           (RemoteAddress t))
                        (qualifyLocal (LocalAddress t))),
                   None), w2)
             end
         end
    /\ forall t' w',
         makeRunConfig e t w = ((t', None), w') ->
         exists r', rc t' = Some r'
                    /\ hostName r' = hostName (overrideAndDefault t entry).
Proof.
  intros Hok. pose proof (parseSSHConf_cases e (Host t) runConfig0 w) as Hc.
  assert (Hentry : exists entry w1,
             parseSSHConf e (Host t) runConfig0 w = ((entry, None), w1)
             /\ suppliedString (hostName entry) = fromConfig e (Host t) "HostName").
  { unfold fromConfig. destruct (decodedConfig e) as [[conf|err]|].
    - destruct Hc as (r' & Hp & _ & _ & _ & Hh).
      exists r'. eexists. split; [exact Hp | now rewrite Hh].
    - now destruct (Hok err).
    - exists runConfig0. eexists. split; [exact Hc | reflexivity]. }
  destruct Hentry as (entry & w1 & Hp & Hh).
  exists entry, w1. split; [exact Hp |]. split; [| split].
  - rewrite <- Hh, overrideAndDefault_hostName. unfold suppliedString at 2.
    cbn. destruct (String.eqb (hostName entry) "") eqn:E.
    + now destruct (suppliedString (Host t)).
    + unfold suppliedString. now rewrite E.
  - exact (makeRunConfig_parsed e _ _ _ _ Hp).
  - intros t' w' Hrun. rewrite (makeRunConfig_parsed e _ _ _ _ Hp) in Hrun.
    cbv zeta in Hrun.
    destruct (validate (overrideAndDefault t entry)); [discriminate |].
    destruct (makeClientConfig e _ _ w1) as [[cc|err] w2]; [| discriminate].
    injection Hrun as <- _. eexists. split; reflexivity.
Qed.

(** *** [makeClientConfig] *)

(** X10: Every run of [makeClientConfig] reads the four candidates, in the order
    identity file, RSA, ECDSA, Ed25519, whether or not an earlier one
    loaded; the known-hosts store is consulted only after that and only
    when a key was loaded, so that without a key the error is the missing
    keys whatever the state of the store. *)
Theorem makeClientConfig_call_pattern (user identityFile : string) w
    (made : ClientConfig Signer HostKeyCallback + error) w' :
  makeClientConfig e user identityFile w = (made, w') ->
  newCalls w w'
  = ([CallReadFile (fillHome e identityFile);
      CallReadFile (fillHome e "~/.ssh/id_rsa");
      CallReadFile (fillHome e "~/.ssh/id_ecdsa");
      CallReadFile (fillHome e "~/.ssh/id_ed25519")]
       ++ match loaded e (identityFile :: defaultKeys) with
          | [] => []
          | _ => [CallKnownHosts knownHostsPath]
          end)%list
  /\ (loaded e (identityFile :: defaultKeys) = [] ->
      made = inr "no key files found.").
Proof.
  intros H.
  destruct (makeClientConfig_spec e user identityFile w)
    as (w1 & lines & _ & Hc & _ & _ & Hm).
  rewrite Hm in H. cbn [map defaultKeys] in Hc.
  destruct (loaded e (identityFile :: defaultKeys)).
  - injection H as <- <-. split; [| reflexivity].
    rewrite app_nil_r. now apply newCalls_app.
  - injection H as _ <-. split; [| discriminate].
    apply newCalls_app. unfold addCalls. cbn [calls]. rewrite Hc.
    now rewrite <- app_assoc.
Qed.

Lemma makeClientConfig_returned (user identityFile : string) w
    (cc : ClientConfig Signer HostKeyCallback) w' :
  makeClientConfig e user identityFile w = (inl cc, w') ->
  exists s ss cb,
    loaded e (identityFile :: defaultKeys) = s :: ss
    /\ knownhosts_New e knownHostsPath = inl cb
    /\ cc = {| ssh_User := user; ssh_Auth := [PublicKeys (s :: ss)];
               ssh_HostKeyCallback := cb; ssh_Timeout := sshConnTimeout |}.
Proof.
  intros H.
  destruct (makeClientConfig_spec e user identityFile w)
    as (w1 & lines & _ & _ & _ & _ & Hm).
  rewrite Hm in H.
  destruct (loaded e (identityFile :: defaultKeys)) as [|s ss] eqn:Hl;
    [discriminate |].
  destruct (knownhosts_New e knownHostsPath) as [cb|err]; [| discriminate].
  injection H as <- _. exists s, ss, cb. repeat split.
Qed.

(** X11: A client configuration that is returned is for the user given, has the
    10 second timeout, the callback that [knownhosts.New] returned, and one
    authentication method: the public keys of the signers loaded, of which
    there is at least one; the signer of the declared identity file, when
    that file loads, is the first. *)
Theorem makeClientConfig_success_shape (user identityFile : string) w
    (cc : ClientConfig Signer HostKeyCallback) w' :
  makeClientConfig e user identityFile w = (inl cc, w') ->
  ssh_User cc = user
  /\ ssh_Timeout cc = 10000000000
  /\ knownhosts_New e knownHostsPath = inl (ssh_HostKeyCallback cc)
  /\ exists s ss,
       ssh_Auth cc = [PublicKeys (s :: ss)]
       /\ loaded e (identityFile :: defaultKeys) = s :: ss
       /\ forall s0, outcome e identityFile = Loaded s0 -> s = s0.
Proof.
  intros H.
  destruct (makeClientConfig_returned _ _ _ _ _ H) as (s & ss & cb & Hl & Hk & ->).
  cbn. repeat split; [exact Hk |].
  exists s, ss. repeat split; [exact Hl |].
  intros s0 Ho. rewrite loaded_cons, Ho in Hl. now injection Hl as <- _.
Qed.

Lemma loaded_member (l : list string) (i : string) (s : Signer) :
  In i l -> outcome e i = Loaded s ->
  exists l1 l2, loaded e l = (l1 ++ s :: l2)%list.
Proof.
  intros Hin Ho. apply in_split in Hin. destruct Hin as (a & b & ->).
  rewrite loaded_app, loaded_cons, Ho. eexists. eexists. reflexivity.
Qed.

Lemma warned_member (l : list string) (i : string) (err : error) :
  In i l -> outcome e i = Warned err ->
  exists l1 l2, warned e l = (l1 ++ (i, err) :: l2)%list.
Proof.
  intros Hin Ho. apply in_split in Hin. destruct Hin as (a & b & ->).
  rewrite warned_app, warned_cons, Ho. eexists. eexists. reflexivity.
Qed.

(** X12: The candidates are not deduplicated: a declared identity file that
    is one of the three default keys is read twice by the scan, so that its
    signer is twice in the signer set of the scan and of the client
    configuration when it parses, and two warnings about it are written
    when it does not. *)
Theorem declared_default_key_counts_twice (identityFile key : string) w :
  In identityFile defaultKeys ->
  fs e (fillHome e identityFile) = Regular key ->
  (exists cs1 cs2,
      newCalls w (snd (scanKeys e (identityFile :: defaultKeys) [] w))
      = (CallReadFile (fillHome e identityFile) :: cs1
           ++ CallReadFile (fillHome e identityFile) :: cs2)%list)
  /\ (forall signer,
        ssh_ParsePrivateKey e key = inl signer ->
        exists l1 l2,
          fst (scanKeys e (identityFile :: defaultKeys) [] w)
          = (signer :: l1 ++ signer :: l2)%list
          /\ forall (user : string) cc w2,
               makeClientConfig e user identityFile w = (inl cc, w2) ->
               ssh_Auth cc = [PublicKeys (signer :: l1 ++ signer :: l2)])
  /\ (forall err,
        ssh_ParsePrivateKey e key = inr err ->
        exists line1 lines1 line2 lines2,
          newWrites w (snd (scanKeys e (identityFile :: defaultKeys) [] w))
          = (line1 :: lines1 ++ line2 :: lines2)%list
          /\ isParseWarning e (identityFile, err) line1
          /\ isParseWarning e (identityFile, err) line2).
Proof.
  intros Hin Hfs.
  destruct (scanKeys_spec e (identityFile :: defaultKeys) [] w)
    as (w1 & lines & Hs & Hc & Hw & Hf).
  rewrite Hs. cbn [fst snd]. rewrite app_nil_l in *.
  split; [| split].
  - rewrite (newCalls_app _ _ _ Hc). cbn [map].
    destruct (in_split _ _ Hin) as (a & b & Hab). rewrite Hab, map_app.
    cbn [map]. eexists. eexists. reflexivity.
  - intros signer Hparse.
    assert (Ho : outcome e identityFile = Loaded signer)
      by (unfold outcome; rewrite Hfs, Hparse; reflexivity).
    destruct (loaded_member _ _ _ Hin Ho) as (l1 & l2 & Hl).
    assert (Hall : loaded e (identityFile :: defaultKeys)
                   = (signer :: l1 ++ signer :: l2)%list)
      by (rewrite loaded_cons, Ho, Hl; reflexivity).
    exists l1, l2. split; [exact Hall |].
    intros user cc w2 Hm.
    destruct (makeClientConfig_returned _ _ _ _ _ Hm)
      as (s & ss & cb & Hss & _ & ->).
    cbn. rewrite <- Hss, Hall. reflexivity.
  - intros err Hparse.
    assert (Ho : outcome e identityFile = Warned err)
      by (unfold outcome; rewrite Hfs, Hparse; reflexivity).
    destruct (warned_member _ _ _ Hin Ho) as (l1 & l2 & Hl).
    rewrite warned_cons, Ho, Hl in Hf. cbn [app] in Hf.
    rewrite (newWrites_app _ _ _ Hw).
    inversion Hf as [|x line1 l rest H1 Hrest]; subst.
    apply Forall2_app_inv_l in Hrest.
    destruct Hrest as (lines1 & rest2 & _ & H2 & ->).
    inversion H2 as [|x line2 l lines2 H2' _]; subst.
    exists line1, lines1, line2, lines2. repeat split; assumption.
Qed.

(** *** [makeRunConfig] *)

(** The stages of [makeRunConfig] in one equation. *)
Lemma makeRunConfig_stages t w :
  exists entry perr w1,
    parseSSHConf e (Host t) runConfig0 w = ((entry, perr), w1)
    /\ match perr with
       | Some err =>
           makeRunConfig e t w
           = ((t, Some ("could not parse SSH config: " ++ err)), w1)
       | None =>
           match validate (overrideAndDefault t entry) with
           | Some err => makeRunConfig e t w = ((t, Some err), w1)
           | None =>
               exists made w2,
                 makeClientConfig e (user (overrideAndDefault t entry))
                   (identityFile (overrideAndDefault t entry)) w1 = (made, w2)
                 /\ makeRunConfig e t w
                    = match made with
                      | inr err =>
                          ((t, Some ("could not make client config: " ++ err)),
                           w2)
                      | inl cc =>
                          ((set_rc t
                              (set_localAddress
                                 (set_remoteAddress
                                    (set_clientConfig
                                       (overrideAndDefault t entry) (Some cc))
                                    (RemoteAddress t))
                                 (qualifyLocal (LocalAddress t))),
                            None), w2)
                      end
           end
       end.
Proof.
  destruct (parseSSHConf e (Host t) runConfig0 w) as [[entry perr] w1] eqn:Hp.
  exists entry, perr, w1. split; [reflexivity |].
  destruct perr as [err|].
  - exact (makeRunConfig_parse_error e _ _ _ _ _ Hp).
  - pose proof (makeRunConfig_parsed e _ _ _ _ Hp) as H. cbv zeta in H.
    destruct (validate (overrideAndDefault t entry)); [exact H |].
    destruct (makeClientConfig e _ _ w1) as [made w2].
    exists made, w2. split; [reflexivity | exact H].
Qed.

(** X13: A resolution that fails returns the tunnel as it was given, so that a
    run configuration stored by an earlier resolution stays; a resolution
    that succeeds changes nothing of the tunnel but its run
    configuration. *)
Theorem makeRunConfig_changes_only_rc t w t' (res : option error) w' :
  makeRunConfig e t w = ((t', res), w') ->
  (res <> None -> t' = t)
  /\ (res = None -> rc t' <> None)
  /\ Host t' = Host t /\ User t' = User t /\ Port t' = Port t
  /\ IdentityFile t' = IdentityFile t
  /\ LocalAddress t' = LocalAddress t
  /\ RemoteAddress t' = RemoteAddress t.
Proof.
  intros H.
  destruct (makeRunConfig_stages t w) as (entry & perr & w1 & _ & Hs).
  destruct perr as [err|].
  { rewrite Hs in H. injection H as <- <- _.
    repeat split; try reflexivity. discriminate. }
  destruct (validate (overrideAndDefault t entry)) as [err|].
  { rewrite Hs in H. injection H as <- <- _.
    repeat split; try reflexivity. discriminate. }
  destruct Hs as (made & w2 & _ & Hs). rewrite Hs in H.
  destruct made as [cc|err]; injection H as <- <- _.
  - repeat split; try reflexivity.
    + intros Hn. now destruct Hn.
    + discriminate.
  - repeat split; try reflexivity. discriminate.
Qed.

Lemma overrideAndDefault_port_nonzero t r :
  port (overrideAndDefault t r) <> 0.
Proof.
  rewrite overrideAndDefault_port.
  destruct (Z.eqb_spec (Port t) 0); [| assumption].
  destruct (Z.eqb_spec (port r) 0); [discriminate | assumption].
Qed.

(** X14: After the overrides and the default the port is never zero, so the port
    check of [validate] cannot fire in a resolution: [makeRunConfig] never
    fails with the error of the missing port. *)
Theorem port_check_never_fires :
  (forall t r, port (overrideAndDefault t r) <> 0)
  /\ (forall t w t' err w',
        makeRunConfig e t w = ((t', Some err), w') ->
        err <> "no port specified.").
Proof.
  pose proof overrideAndDefault_port_nonzero as Hport.
  split; [exact Hport |].
  intros t w t' err w' H.
  destruct (makeRunConfig_stages t w) as (entry & perr & w1 & _ & Hs).
  destruct perr as [perr|].
  { rewrite Hs in H. injection H as _ <- _. discriminate. }
  destruct (validate (overrideAndDefault t entry)) as [verr|] eqn:Hv.
  { rewrite Hs in H. injection H as _ <- _.
    unfold validate in Hv.
    destruct (String.eqb (hostName (overrideAndDefault t entry)) "");
      [injection Hv as <-; discriminate |].
    destruct (String.eqb (user (overrideAndDefault t entry)) "");
      [injection Hv as <-; discriminate |].
    destruct (Z.eqb_spec (port (overrideAndDefault t entry)) 0) as [E|E];
      [now destruct (Hport t entry) | discriminate]. }
  destruct Hs as (made & w2 & _ & Hs). rewrite Hs in H.
  destruct made as [cc|cerr]; [discriminate |].
  injection H as _ <- _. discriminate.
Qed.

(** X15: The error of a resolution whose configuration was read is decided in
    this order: the host name is empty, the user is empty, no key was
    loaded, the known-hosts callback was not constructed; it succeeds when
    none of these holds. *)
Theorem makeRunConfig_error_order t w
    (entry : runConfig Signer HostKeyCallback) w1 :
  parseSSHConf e (Host t) runConfig0 w = ((entry, None), w1) ->
  snd (fst (makeRunConfig e t w))
  = if String.eqb (hostName (overrideAndDefault t entry)) ""
    then Some "no host specified."
    else if String.eqb (user (overrideAndDefault t entry)) ""
    then Some "no user specified."
    else
      match loaded e (identityFile (overrideAndDefault t entry) :: defaultKeys)
      with
      | [] => Some "could not make client config: no key files found."
      | _ =>
          match knownhosts_New e knownHostsPath with
          | inr err => Some ("could not make client config: " ++ err)
          | inl _ => None
          end
      end.
Proof.
  intros Hp. rewrite (makeRunConfig_parsed e _ _ _ _ Hp). cbv zeta.
  pose proof (overrideAndDefault_port_nonzero t entry) as Hport.
  unfold validate.
  destruct (String.eqb (hostName (overrideAndDefault t entry)) "");
    [reflexivity |].
  destruct (String.eqb (user (overrideAndDefault t entry)) "");
    [reflexivity |].
  destruct (Z.eqb_spec (port (overrideAndDefault t entry)) 0);
    [contradiction |].
  destruct (makeClientConfig_spec e (user (overrideAndDefault t entry))
              (identityFile (overrideAndDefault t entry)) w1)
    as (w2 & lines & _ & _ & _ & _ & Hm).
  rewrite Hm.
  destruct (loaded e _); [reflexivity |].
  destruct (knownhosts_New e knownHostsPath); reflexivity.
Qed.

(** X17: The run configuration that a successful resolution stores passes
    [validate], has a client configuration for its own user with at least
    one signer, has the remote address of the declaration as it was given,
    not normalised, and a local address with a colon. *)
Theorem stored_run_configuration_is_valid t w t' w' :
  makeRunConfig e t w = ((t', None), w') ->
  exists r' cc s ss,
    rc t' = Some r'
    /\ validate r' = None
    /\ clientConfig r' = Some cc
    /\ ssh_User cc = user r'
    /\ ssh_Auth cc = [PublicKeys (s :: ss)]
    /\ remoteAddress r' = RemoteAddress t
    /\ strings.Contains (localAddress r') ":" = true.
Proof.
  intros H.
  destruct (makeRunConfig_stages t w) as (entry & perr & w1 & _ & Hs).
  destruct perr as [err|]; [rewrite Hs in H; discriminate |].
  destruct (validate (overrideAndDefault t entry)) as [err|] eqn:Hv;
    [rewrite Hs in H; discriminate |].
  destruct Hs as (made & w2 & Hm & Hs). rewrite Hs in H.
  destruct made as [cc|err]; [| discriminate].
  injection H as <- _.
  destruct (makeClientConfig_returned _ _ _ _ _ Hm)
    as (s & ss & cb & _ & _ & Hcc).
  assert (Hu : ssh_User cc = user (overrideAndDefault t entry))
    by (rewrite Hcc; reflexivity).
  assert (Ha : ssh_Auth cc = [PublicKeys (s :: ss)])
    by (rewrite Hcc; reflexivity).
  exists (set_localAddress
            (set_remoteAddress
               (set_clientConfig (overrideAndDefault t entry) (Some cc))
               (RemoteAddress t))
            (qualifyLocal (LocalAddress t))), cc, s, ss.
  split; [reflexivity |]. split; [exact Hv |]. split; [reflexivity |].
  split; [exact Hu |]. split; [exact Ha |]. split; [reflexivity |].
  cbn [localAddress set_localAddress]. unfold qualifyLocal.
  destruct (strings.Contains (LocalAddress t) ":") eqn:E; cbn [negb];
    [exact E | apply Contains_localhost].
Qed.

End MoreProperties.

(** ** [strconv.Atoi] on decimal numerals *)

Lemma of_uint_acc_decimalValue (d : Decimal.uint) :
  forall acc : positive,
    Z.pos (Pos.of_uint_acc d acc) = decimalValue d (Z.pos acc).
Proof.
  induction d; intros acc; cbn [Pos.of_uint_acc decimalValue];
    try reflexivity; rewrite IHd; f_equal; lia.
Qed.

Lemma of_uint_decimalValue (d : Decimal.uint) :
  Z.of_uint d = decimalValue d 0.
Proof.
  unfold Z.of_uint.
  induction d; cbn [Pos.of_uint decimalValue]; try reflexivity;
    try (rewrite IHd; reflexivity);
    cbn [Z.of_N]; rewrite of_uint_acc_decimalValue; reflexivity.
Qed.

Lemma fastLoop_decimalValue (s : string) :
  forall (d : Decimal.uint) (k : nat) (n : Z),
    DecimalString.NilEmpty.uint_of_string s = Some d ->
    (k + String.length s <= 18)%nat ->
    0 <= n < 10 ^ Z.of_nat k ->
    strconv.fastLoop s n = Some (decimalValue d n)
    /\ 0 <= decimalValue d n < 10 ^ Z.of_nat (k + String.length s).
Proof.
  induction s as [|c s IH]; intros d k n Hd Hk Hn.
  - cbn in Hd. injection Hd as <-. cbn [String.length strconv.fastLoop decimalValue].
    rewrite Nat.add_0_r. split; [reflexivity | exact Hn].
  - cbn [DecimalString.NilEmpty.uint_of_string] in Hd.
    destruct (DecimalString.NilEmpty.uint_of_string s) as [d0|] eqn:Hs;
      [| discriminate].
    cbn [String.length] in *.
    assert (Hpow : 10 ^ Z.of_nat k <= 10 ^ 17)
      by (apply Z.pow_le_mono_r; lia).
    change (10 ^ 17) with 100000000000000000 in Hpow.
    assert (Hstep : forall v, 0 <= v <= 9 ->
              strconv.to_int (n * 10 + v) = n * 10 + v
              /\ 0 <= n * 10 + v < 10 ^ Z.of_nat (S k)).
    { intros v Hv. split.
      - unfold strconv.to_int.
        change (2 ^ 63) with 9223372036854775808.
        change (2 ^ 64) with 18446744073709551616.
        rewrite Z.mod_small by lia. lia.
      - rewrite Nat2Z.inj_succ, Z.pow_succ_r by lia. lia. }
    replace (k + S (String.length s))%nat with (S k + String.length s)%nat
      by lia.
    apply DecimalString.uint_of_char_spec in Hd.
    cbn [strconv.fastLoop].
    repeat (destruct Hd as [[-> ->]|Hd]); try destruct Hd as [-> ->];
      match goal with
      | |- context [strconv.digit ?c] =>
          let v := eval vm_compute in (strconv.digit c) in
          change (strconv.digit c) with v
      end;
      cbv iota; cbn [decimalValue];
      try replace (decimalValue d0 (n * 10))
            with (decimalValue d0 (n * 10 + 0)) by (f_equal; lia);
      match goal with
      | |- context [strconv.to_int (n * 10 + ?v)] =>
          destruct (Hstep v ltac:(lia)) as [Hw Hb];
          rewrite Hw; apply (IH d0 (S k)); [reflexivity | lia | exact Hb]
      end.
Qed.

Lemma numeral_starts_with_digit (c : ascii) (s : string) (d : Decimal.uint) :
  DecimalString.NilEmpty.uint_of_string (String c s) = Some d ->
  strconv.isSign c = false.
Proof.
  cbn [DecimalString.NilEmpty.uint_of_string].
  destruct (DecimalString.NilEmpty.uint_of_string s) as [d0|]; [| discriminate].
  intros H. apply DecimalString.uint_of_char_spec in H.
  repeat (destruct H as [[-> _]|H]); try destruct H as [-> _]; reflexivity.
Qed.

Lemma Atoi_fast_path (s : string) :
  (0 < String.length s < 19)%nat ->
  ((0 <? Z.of_nat (String.length s)) && (Z.of_nat (String.length s) <? 19))
  = true.
Proof.
  intros H. apply andb_true_intro. split; apply Z.ltb_lt; lia.
Qed.

(** [Atoi] reads a numeral of one to eighteen digits as the number it
    denotes, also after a sign. *)
Lemma Atoi_numeral (s : string) (d : Decimal.uint) :
  DecimalString.NilEmpty.uint_of_string s = Some d ->
  (0 < String.length s < 18)%nat ->
  strconv.Atoi s = (Z.of_uint d, None)
  /\ strconv.Atoi (String "+" s) = (Z.of_uint d, None)
  /\ strconv.Atoi (String "-" s) = (- Z.of_uint d, None).
Proof.
  intros Hd Hlen.
  destruct (fastLoop_decimalValue s d 0%nat 0 Hd) as [Hf _];
    [cbn; lia | cbn; lia |].
  rewrite of_uint_decimalValue.
  destruct s as [|c s1]; [cbn in Hlen; lia |].
  pose proof (numeral_starts_with_digit c s1 d Hd) as Hsign.
  repeat split.
  - unfold strconv.Atoi. rewrite Atoi_fast_path by (cbn in *; lia).
    cbv zeta. rewrite Hsign, Hf.
    unfold strconv.isSign in Hsign. apply orb_false_elim in Hsign.
    now rewrite (proj1 Hsign).
  - unfold strconv.Atoi. rewrite Atoi_fast_path by (cbn in *; lia).
    cbv zeta. change (strconv.isSign "+") with true. cbv iota.
    now rewrite Hf.
  - unfold strconv.Atoi. rewrite Atoi_fast_path by (cbn in *; lia).
    cbv zeta. change (strconv.isSign "-") with true. cbv iota.
    now rewrite Hf.
Qed.

Section PortProperties.

Context {Config Signer HostKeyCallback : Type}.
Variable e : Env Config Signer HostKeyCallback.

Implicit Types (r : runConfig Signer HostKeyCallback).
Implicit Types (w : World).

(** X18: A Port directive of one to seventeen decimal digits, with or without a
    sign, is read as the number it denotes: as it stands without a sign or
    after a plus sign, negated after a minus sign. *)
Theorem configured_port_numeral_is_read (alias : string) r w (conf : Config)
    (digits : string) (d : Decimal.uint) :
  decodedConfig e = Some (inl conf) ->
  DecimalString.NilEmpty.uint_of_string digits = Some d ->
  (0 < String.length digits < 18)%nat ->
  let parsed := port (fst (fst (parseSSHConf e alias r w))) in
  (configured e conf alias "Port" = digits -> parsed = Z.of_uint d)
  /\ (configured e conf alias "Port" = String "+" digits ->
      parsed = Z.of_uint d)
  /\ (configured e conf alias "Port" = String "-" digits ->
      parsed = - Z.of_uint d).
Proof.
  intros Hdec Hd Hlen parsed.
  pose proof (parseSSHConf_cases e alias r w) as Hc. rewrite Hdec in Hc.
  destruct Hc as (r' & Hp & _ & _ & Hport & _).
  assert (Hparsed : parsed = fst (strconv.Atoi (configured e conf alias "Port")))
    by (unfold parsed; rewrite Hp; exact Hport).
  destruct (Atoi_numeral digits d Hd Hlen) as (H0 & Hplus & Hminus).
  repeat split; intros Htext; rewrite Hparsed, Htext.
  - now rewrite H0.
  - now rewrite Hplus.
  - now rewrite Hminus.
Qed.

End PortProperties.

(** ** The further properties on concrete inputs *)

Lemma tryRotate_idempotent_and_sparing_witness :
  let w := {| log.inner := log.FileWriter ripeFile |} in
  log.tryRotate w <> w
  /\ log.tryRotate w
     = {| log.inner :=
            log.FileWriter
              {| log.size := 0; log.offset := 0;
                 log.statFails := false; log.truncateFails := false |} |}.
Proof.
  intros w.
  assert (Hne : log.tryRotate w <> w) by (vm_compute; discriminate).
  split; [exact Hne |].
  destruct (proj2 (tryRotate_idempotent_and_sparing w) Hne)
    as (f & _ & _ & _ & _ & H).
  exact H.
Defined.

Lemma log_file_stays_bounded_witness :
  let st := loggingTo nearlyRipeFile in
  let chunks := ["first line"; "second line"; "third line"] in
  log.appending nearlyRipeFile
  /\ exists f',
       log.inner (log.writer (log.writeAll chunks st)) = log.FileWriter f'
       /\ log.size f' < 131072 + 11.
Proof.
  intros st chunks.
  assert (Hap : log.appending nearlyRipeFile)
    by (unfold log.appending; cbn; repeat split; lia).
  split; [exact Hap |].
  destruct (log_file_stays_bounded 11 chunks st nearlyRipeFile)
    as (f' & Hin & _ & Hsz).
  - reflexivity.
  - exact Hap.
  - cbn. lia.
  - repeat constructor; cbn; lia.
  - exists f'. split; [exact Hin | exact Hsz].
Defined.

Lemma Write_on_ripe_file_keeps_last_chunk_only_witness :
  exists f',
    log.inner (log.writer (log.Write "a line" (loggingTo ripeFile)))
    = log.FileWriter f'
    /\ log.size f' = 6.
Proof.
  destruct (Write_on_ripe_file_keeps_last_chunk_only "a line"
              (loggingTo ripeFile) ripeFile)
    as (f' & Hin & Hsz & _).
  - reflexivity.
  - reflexivity.
  - reflexivity.
  - cbn. lia.
  - exists f'. split; [exact Hin | exact Hsz].
Defined.

Lemma Write_without_truncate_never_shrinks_witness :
  log.tryRotate (log.writer (loggingTo fullPipe))
  = log.writer (loggingTo fullPipe)
  /\ exists f',
       log.inner (log.writer (log.writeAll ["a line"; "another line"]
                                (loggingTo fullPipe)))
       = log.FileWriter f'
       /\ 200000 <= log.size f'.
Proof.
  destruct (Write_without_truncate_never_shrinks ["a line"; "another line"]
              (loggingTo fullPipe) fullPipe)
    as (Hr & f' & Hin & Hsz & _).
  - reflexivity.
  - reflexivity.
  - split; [exact Hr |]. exists f'. split; [exact Hin | exact Hsz].
Defined.

Lemma fillHome_shapes_witness :
  let e := env home myhostConf in
  fillHome e "/etc/ssh/key" = "/etc/ssh/key"
  /\ fillHome e "~bob/.ssh/id_rsa" = "~bob/.ssh/id_rsa"
  /\ fillHome e "~/keys/id" = "/home/u/keys/id".
Proof.
  intros e.
  destruct (fillHome_shapes e) as (_ & Hhome & _ & Hother & Huser).
  split; [| split].
  - apply Hother. discriminate.
  - apply Huser. discriminate.
  - exact (Hhome "keys/id").
Defined.

Lemma host_name_from_config_else_alias_witness :
  let e := env home myhostConf in
  (forall err, decodedConfig e <> Some (inr err))
  /\ (exists t' w' r',
        makeRunConfig e (tunnel "myhost" "" 0 "" "8080") world0
        = ((t', None), w')
        /\ rc t' = Some r'
        /\ suppliedString (hostName r') = Some "example.com")
  /\ (exists t' w' r',
        makeRunConfig e (tunnel "10.0.0.7" "bob" 0 "" "8080") world0
        = ((t', None), w')
        /\ rc t' = Some r'
        /\ suppliedString (hostName r') = Some "10.0.0.7").
Proof.
  intros e.
  assert (Hok : forall err, decodedConfig e <> Some (inr err))
    by (intros err H; vm_compute in H; discriminate).
  assert (Hrun : forall t,
            snd (fst (makeRunConfig e t world0)) = None ->
            makeRunConfig e t world0
            = ((fst (fst (makeRunConfig e t world0)), None),
               snd (makeRunConfig e t world0))).
  { intros t H. destruct (makeRunConfig e t world0) as [[t' res] w'].
    cbn in *. now subst res. }
  split; [exact Hok |]. split.
  - destruct (host_name_from_config_else_alias e
                (tunnel "myhost" "" 0 "" "8080") world0 Hok)
      as (entry & w1 & _ & Hh & _ & Hst).
    pose proof (Hrun (tunnel "myhost" "" 0 "" "8080") eq_refl) as Hr.
    destruct (Hst _ _ Hr) as (r' & Hrc & Hh').
    eexists. eexists. exists r'. split; [exact Hr |].
    split; [exact Hrc |]. rewrite Hh'. exact Hh.
  - destruct (host_name_from_config_else_alias e
                (tunnel "10.0.0.7" "bob" 0 "" "8080") world0 Hok)
      as (entry & w1 & _ & Hh & _ & Hst).
    pose proof (Hrun (tunnel "10.0.0.7" "bob" 0 "" "8080") eq_refl) as Hr.
    destruct (Hst _ _ Hr) as (r' & Hrc & Hh').
    eexists. eexists. exists r'. split; [exact Hr |].
    split; [exact Hrc |]. rewrite Hh'. exact Hh.
Defined.

Lemma makeClientConfig_call_pattern_witness :
  let e := env homeWithoutKeys myhostConf in
  let out := makeClientConfig e "alice" "" world0 in
  newCalls world0 (snd out)
  = [CallReadFile ""; CallReadFile "/home/u/.ssh/id_rsa";
     CallReadFile "/home/u/.ssh/id_ecdsa";
     CallReadFile "/home/u/.ssh/id_ed25519"]
  /\ fst out = inr "no key files found.".
Proof.
  intros e out.
  destruct (makeClientConfig_call_pattern e "alice" "" world0 (fst out) (snd out))
    as [Hc Hm].
  - apply surjective_pairing.
  - split; [exact Hc | apply Hm; reflexivity].
Defined.

Lemma makeClientConfig_success_shape_witness :
  let e := env home myhostConf in
  exists cc w',
    makeClientConfig e "alice" "" world0 = (inl cc, w')
    /\ ssh_User cc = "alice"
    /\ ssh_Auth cc = [PublicKeys ["KEY ed25519"]].
Proof.
  intros e.
  assert (Hrun : exists cc w', makeClientConfig e "alice" "" world0 = (inl cc, w'))
    by (eexists; eexists; reflexivity).
  destruct Hrun as (cc & w' & Hrun).
  destruct (makeClientConfig_success_shape e _ _ _ _ _ Hrun)
    as (Hu & _ & _ & s & ss & Ha & Hl & _).
  exists cc, w'. split; [exact Hrun |]. split; [exact Hu |].
  rewrite Ha. f_equal. f_equal. symmetry. exact Hl.
Defined.

Lemma declared_default_key_counts_twice_witness :
  let e := env homeWithRsa myhostConf in
  In "~/.ssh/id_rsa" defaultKeys
  /\ fs e (fillHome e "~/.ssh/id_rsa") = Regular "KEY rsa"
  /\ fst (scanKeys e ("~/.ssh/id_rsa" :: defaultKeys) [] world0)
     = ["KEY rsa"; "KEY rsa"]
  /\ exists l1 l2,
       fst (scanKeys e ("~/.ssh/id_rsa" :: defaultKeys) [] world0)
       = ("KEY rsa" :: l1 ++ "KEY rsa" :: l2)%list.
Proof.
  intros e.
  assert (Hin : In "~/.ssh/id_rsa" defaultKeys) by (left; reflexivity).
  assert (Hfs : fs e (fillHome e "~/.ssh/id_rsa") = Regular "KEY rsa")
    by reflexivity.
  split; [exact Hin |]. split; [exact Hfs |]. split; [reflexivity |].
  destruct (proj1 (proj2 (declared_default_key_counts_twice e "~/.ssh/id_rsa"
                            "KEY rsa" world0 Hin Hfs))
              "KEY rsa" eq_refl) as (l1 & l2 & Hl & _).
  exists l1, l2. exact Hl.
Defined.

Lemma makeRunConfig_changes_only_rc_witness :
  let e := env homeWithoutKeys myhostConf in
  let t := tunnel "myhost" "" 0 "" "8080" in
  snd (fst (makeRunConfig e t world0)) <> None
  /\ fst (fst (makeRunConfig e t world0)) = t.
Proof.
  intros e t.
  assert (Hne : snd (fst (makeRunConfig e t world0)) <> None)
    by (vm_compute; discriminate).
  split; [exact Hne |].
  apply (proj1 (makeRunConfig_changes_only_rc e t world0
                  (fst (fst (makeRunConfig e t world0)))
                  (snd (fst (makeRunConfig e t world0)))
                  (snd (makeRunConfig e t world0)) eq_refl)).
  exact Hne.
Defined.

Lemma port_check_never_fires_witness :
  let e := env home myhostConf in
  let t := tunnel "other" "" 0 "" "8080" in
  exists err w',
    makeRunConfig e t world0 = ((t, Some err), w')
    /\ err <> "no port specified.".
Proof.
  intros e t.
  assert (Hrun : exists err w', makeRunConfig e t world0 = ((t, Some err), w'))
    by (eexists; eexists; reflexivity).
  destruct Hrun as (err & w' & Hrun).
  exists err, w'. split; [exact Hrun |].
  exact (proj2 (port_check_never_fires e) t world0 t err w' Hrun).
Defined.

Lemma makeRunConfig_error_order_witness :
  let e := env homeWithoutKeys myhostConf in
  let t := tunnel "other" "" 0 "" "8080" in
  exists entry w1,
    parseSSHConf e (Host t) runConfig0 world0 = ((entry, None), w1)
    /\ snd (fst (makeRunConfig e t world0)) = Some "no user specified.".
Proof.
  intros e t.
  assert (Hp : exists entry w1,
             parseSSHConf e (Host t) runConfig0 world0 = ((entry, None), w1))
    by (eexists; eexists; reflexivity).
  destruct Hp as (entry & w1 & Hp).
  exists entry, w1. split; [exact Hp |].
  rewrite (makeRunConfig_error_order e t world0 entry w1 Hp).
  assert (He : entry = fst (fst (parseSSHConf e (Host t) runConfig0 world0)))
    by (rewrite Hp; reflexivity).
  rewrite He. reflexivity.
Defined.

Lemma stored_run_configuration_is_valid_witness :
  let e := env home myhostConf in
  let t := tunnel "myhost" "" 0 "" "8080" in
  exists t' w' r',
    makeRunConfig e t world0 = ((t', None), w')
    /\ rc t' = Some r' /\ validate r' = None
    /\ remoteAddress r' = "localhost:5432".
Proof.
  intros e t.
  assert (Hrun : exists t' w', makeRunConfig e t world0 = ((t', None), w')).
  { exists (fst (fst (makeRunConfig e t world0))),
      (snd (makeRunConfig e t world0)). reflexivity. }
  destruct Hrun as (t' & w' & Hrun).
  destruct (stored_run_configuration_is_valid e t world0 t' w' Hrun)
    as (r' & cc & s & ss & Hrc & Hv & _ & _ & _ & Hrem & _).
  exists t', w', r'. repeat split; assumption.
Defined.

Lemma configured_port_numeral_is_read_witness :
  let e := env home signedPortConf in
  decodedConfig e = Some (inl signedPortConf)
  /\ port (fst (fst (parseSSHConf e "minus" runConfig0 world0))) = -2222.
Proof.
  intros e.
  assert (Hd : decodedConfig e = Some (inl signedPortConf)) by reflexivity.
  split; [exact Hd |].
  destruct (configured_port_numeral_is_read e "minus" runConfig0 world0
              signedPortConf "2222"
              (Decimal.D2 (Decimal.D2 (Decimal.D2 (Decimal.D2 Decimal.Nil))))
              Hd eq_refl) as (_ & _ & Hminus).
  - cbn. lia.
  - exact (Hminus eq_refl).
Defined.
